(** * szamlazz.js: the request/response marshalling of the invoicing client

    A shallow embedding of [lib/XMLUtils.js] (the XML builder and the
    projector) and of [lib/Client.js] (the protocol codec and the transport
    wrapper), and the properties of the specification proved or refuted on it.

    JavaScript values are an inductive type; a string is a [string] whose
    characters stand for code units below 256; a number is a whole number
    that a double holds exactly, or a number that is not whole, known by
    the whole number below it and by its text (arithmetic is exact; NaN as
    a value and the infinities are outside the model, NaN as the result of
    a conversion is [None]).
    What the code takes from its platform and its libraries (the XML parser,
    the HTTP transport, [decodeURIComponent], base64, the clock) is a
    parameter, the class [Host]. *)

From Equations Require Import Equations.
From Stdlib Require Import Ascii.
From stdpp Require Import strings gmap list pretty.

Set Warnings "-register-all".
Local Open Scope Z_scope.

(** ** Strings *)

Definition chr (n : nat) : string := String (ascii_of_nat n) EmptyString.
Definition nl : string := chr 10.
Definition dq : string := chr 34.

(** White space and line terminators of [String.prototype.trim], among the
    code units below 256: TAB, LF, VT, FF, CR, SP and NBSP. *)
Definition is_ws (a : ascii) : bool :=
  let n := nat_of_ascii a in
  ((9 <=? n)%nat && (n <=? 13)%nat) || (n =? 32)%nat || (n =? 160)%nat.

Fixpoint trimStart (s : string) : string :=
  match s with
  | EmptyString => EmptyString
  | String a s' => if is_ws a then trimStart s' else s
  end.

Definition trim (s : string) : string :=
  String.rev (trimStart (String.rev (trimStart s))).

Definition strlen (s : string) : Z := Z.of_nat (String.length s).

Fixpoint concat_str (l : list string) : string :=
  match l with
  | [] => EmptyString
  | s :: l' => s +:+ concat_str l'
  end.

(** [Array.prototype.join(sep)] on strings. *)
Fixpoint join_str (sep : string) (l : list string) : string :=
  match l with
  | [] => EmptyString
  | [s] => s
  | s :: l' => s +:+ sep +:+ join_str sep l'
  end.

(** [str.split(sep)] for a one-character separator: never the empty list. *)
Fixpoint split_on (sep : ascii) (s : string) : list string :=
  match s with
  | EmptyString => [EmptyString]
  | String a s' =>
      if Ascii.eqb a sep then EmptyString :: split_on sep s'
      else match split_on sep s' with
           | [] => [String a EmptyString]
           | w :: ws => String a w :: ws
           end
  end.

(** [str.replace(/c/g, by)] for a one-character pattern. *)
Fixpoint replace_char (c : ascii) (by_ : string) (s : string) : string :=
  match s with
  | EmptyString => EmptyString
  | String a s' =>
      (if Ascii.eqb a c then by_ else String a EmptyString) +:+ replace_char c by_ s'
  end.

Fixpoint all_chars (p : ascii -> bool) (s : string) : bool :=
  match s with
  | EmptyString => true
  | String a s' => p a && all_chars p s'
  end.

Definition is_digit (a : ascii) : bool :=
  let n := nat_of_ascii a in (48 <=? n)%nat && (n <=? 57)%nat.

(** The index a property key denotes, when it is a canonical array index:
    decimal digits that print back to the key (so no sign, no leading zero). *)
Fixpoint digits_value (acc : N) (s : string) : N :=
  match s with
  | EmptyString => acc
  | String a s' => digits_value (acc * 10 + (N_of_ascii a - 48))%N s'
  end.

Definition array_index (k : string) : option nat :=
  match k with
  | EmptyString => None
  | _ =>
      if all_chars is_digit k then
        let n := digits_value 0%N k in
        if String.eqb (pretty n) k then Some (N.to_nat n) else None
      else None
  end.

(** ** Values *)

(** What the code reads off a [Date] object. *)
Record Date := {
  getFullYear : Z;
  getMonth : Z;
  getDate : Z;
  getTime : Z;
  Date_toString : string
}.

(** A number is [JNum n] when it is whole; whole numbers are taken below
    10^21 in magnitude, where [String] gives their decimal digits. A number
    that is not whole is [JFrac lo text]: it lies strictly between [lo] and
    [lo + 1], and [text] is what [String] gives for it. NaN and the
    infinities are no values here. *)
Inductive jsval :=
| JUndefined
| JNull
| JBool (b : bool)
| JNum (n : Z)
| JFrac (lo : Z) (text : string)
| JStr (s : string)
| JDate (d : Date)
| JArr (items : list jsval)
| JObj (props : list (string * jsval)).

Definition is_undefined (v : jsval) : bool :=
  match v with JUndefined => true | _ => false end.

Definition is_nullish (v : jsval) : bool :=
  match v with JUndefined | JNull => true | _ => false end.

Definition ToBoolean (v : jsval) : bool :=
  match v with
  | JUndefined | JNull => false
  | JBool b => b
  | JNum n => negb (n =? 0)
  | JFrac _ _ => true
  | JStr s => negb (String.eqb s EmptyString)
  | JDate _ | JArr _ | JObj _ => true
  end.

(** [a || b]. *)
Definition js_or (a b : jsval) : jsval := if ToBoolean a then a else b.

(** [String(v)]. An array joins its elements with commas, null and undefined
    elements as the empty string; an object is a plain record (no [toString]
    of its own). *)
Fixpoint ToString (v : jsval) : string :=
  match v with
  | JUndefined => "undefined"
  | JNull => "null"
  | JBool true => "true"
  | JBool false => "false"
  | JNum n => pretty n
  | JFrac _ text => text
  | JStr s => s
  | JDate d => Date_toString d
  | JArr items =>
      join_str ","
        (map (fun x => if is_nullish x then EmptyString else ToString x) items)
  | JObj _ => "[object Object]"
  end.

(** [v === 'lit'] and [v === n]. *)
Definition is_string_lit (v : jsval) (lit : string) : bool :=
  match v with JStr s => String.eqb s lit | _ => false end.

Definition is_number_lit (v : jsval) (n : Z) : bool :=
  match v with JNum m => m =? n | _ => false end.

(** Own properties: the elements and [length] of an array or a string, the
    keys of an object (the first binding of a key counts). *)
Fixpoint assoc (k : string) (props : list (string * jsval)) : option jsval :=
  match props with
  | [] => None
  | (k', v) :: rest => if String.eqb k' k then Some v else assoc k rest
  end.

Definition string_at (s : string) (i : nat) : option jsval :=
  match String.get i s with
  | Some a => Some (JStr (String a EmptyString))
  | None => None
  end.

Definition getOwn (v : jsval) (k : string) : option jsval :=
  match v with
  | JArr items =>
      if String.eqb k "length" then Some (JNum (Z.of_nat (length items)))
      else match array_index k with
           | Some i => items !! i
           | None => None
           end
  | JStr s =>
      if String.eqb k "length" then Some (JNum (strlen s))
      else match array_index k with
           | Some i => string_at s i
           | None => None
           end
  | JObj props => assoc k props
  | _ => None
  end.

(** ** Outcomes *)

Inductive exn :=
| AssertionError (message : string)
  (** [assert(cond, message)] failed *)
| Error (message : string) (code : jsval)
  (** [new Error(message)], with the [code] assigned to it, or undefined *)
| TypeError (message : string)
| ForeignError (message : string)
  (** thrown by a collaborator: the transport, the XML parser, a decoder *).

Inductive outcome (A : Type) :=
| Return (a : A)
| Throw (e : exn).
Arguments Return {A} a.
Arguments Throw {A} e.

#[global] Instance outcome_ret : MRet outcome := fun A a => Return a.

#[global] Instance outcome_bind : MBind outcome := fun A B f m =>
  match m with
  | Return a => f a
  | Throw e => Throw e
  end.

Definition assert (cond : bool) (message : string) : outcome unit :=
  if cond then Return tt else Throw (AssertionError message).

(** [v.k] and [v[k]] for a key that no prototype defines (every key the code
    reads by name is one): undefined when [v] has no such property, a
    TypeError on null and undefined. *)
Definition elem (v : jsval) (k : string) : jsval :=
  default JUndefined (getOwn v k).

Definition Get (v : jsval) (k : string) : outcome jsval :=
  if is_nullish v then Throw (TypeError "Cannot read properties of undefined or null")
  else Return (elem v k).

(** [v?.[k]]. *)
Definition OptGet (v : jsval) (k : string) : jsval :=
  if is_nullish v then JUndefined else elem v k.

(** ** The world outside: transport, parser, platform functions *)

(** What an operation does to the outside, in order: a multipart POST of one
    field carrying the document as the file [request.xml], and a call of the
    XML parser. *)
Inductive event :=
| Posted (fileFieldName : string) (data : string) (isBinaryDownload : bool)
| Parsed (xml : string).

(** The response object of the transport. [resp_data] is its [data], the
    body: the raw bytes when the request asked for an array buffer, the text
    otherwise. *)
Record HttpResponse := {
  status : Z;
  statusText : string;
  headers : gmap string string;
  resp_data : string
}.

Fixpoint has_char (c : ascii) (s : string) : bool :=
  match s with
  | EmptyString => false
  | String a s' => Ascii.eqb a c || has_char c s'
  end.

(** A number, as far as this code tells numbers apart: a whole number, or a
    number that is not whole, known by the whole number below it (it lies
    strictly between [lo] and [lo + 1]). Where a number may be NaN it is an
    [option number], and NaN is [None]. *)
Inductive number :=
| Whole (n : Z)
| Between (lo : Z).

Class Host := {
  (** [Number(s)] on a string; [None] is NaN. No numeric literal holds a comma. *)
  StringToNumber : string -> option number;
  StringToNumber_comma : forall s, has_char "," s = true -> StringToNumber s = None;
  (** The length of the longest string that the engine builds. *)
  max_string_length : Z;
  (** [decodeURIComponent(s)]; throws on a malformed escape. *)
  decodeURIComponent : string -> outcome string;
  (** [xml2js.parseString(xml, cb)]: the parsed document or the parser's error. *)
  xml2js_parseString : string -> outcome jsval;
  (** [removeNamespaces] of XMLUtils.js, whose text is not among the sources:
      it removes the namespace prefix of every tag key, recursively. *)
  removeNamespaces : jsval -> jsval;
  (** [Buffer.from(s, 'base64')] on a string, and on an object or an array. *)
  base64_decode : string -> string;
  Buffer_from_object : jsval -> outcome string;
  (** The POST to the service, after the exchanges so far (the cookie jar):
      what the service answers, whatever its status, or the failure of the
      connection. *)
  axios_post : list event -> string -> string -> bool -> outcome HttpResponse;
  (** [new Date()]. *)
  Date_now : list event -> Date
}.

(** ** XML builder (XMLUtils.js) *)

Definition padStr : string := "  ".

(** [pad(num, str)]: [str || padStr] repeated, [num] times when [num > 0]. *)
Definition pad (num : Z) (str : option string) : string :=
  let str := match str with
             | Some s => if String.eqb s EmptyString then padStr else s
             | None => padStr
             end in
  if 0 <? num then Nat.iter (Z.to_nat num) (fun o => o +:+ str) EmptyString
  else EmptyString.

Definition replaceXMLChar (chr : ascii) : string :=
  if Ascii.eqb chr "<" then "&lt;"
  else if Ascii.eqb chr ">" then "&gt;"
  else if Ascii.eqb chr "&" then "&amp;"
  else String chr EmptyString.

Fixpoint escapeXMLString (str : string) : string :=
  match str with
  | EmptyString => EmptyString
  | String a s' => replaceXMLChar a +:+ escapeXMLString s'
  end.

(** [Number(v)]; [None] is NaN. *)
Definition ToNumber `{Host} (v : jsval) : option number :=
  match v with
  | JUndefined => None
  | JNull => Some (Whole 0)
  | JBool b => Some (Whole (if b then 1 else 0))
  | JNum n => Some (Whole n)
  | JFrac lo _ => Some (Between lo)
  | JStr s => StringToNumber s
  | JDate d => Some (Whole (getTime d))
  | JArr _ => StringToNumber (ToString v)
  | JObj _ => None
  end.

(** A number as a condition: every number but 0 (and NaN) is truthy. *)
Definition number_truthy (x : number) : bool :=
  match x with
  | Whole n => negb (n =? 0)
  | Between _ => true
  end.

(** [x + 1], in exact arithmetic. *)
Definition number_succ (x : number) : number :=
  match x with
  | Whole n => Whole (n + 1)
  | Between lo => Between (lo + 1)
  end.

(** The least whole number that is not below [x]: the loop
    [for (i = 0; i < x; i++)] of [pad] makes that many rounds when [x > 0],
    and none otherwise, so [pad(x)] is [pad] of it. *)
Definition ceiling (x : number) : Z :=
  match x with
  | Whole n => n
  | Between lo => lo + 1
  end.

(** A number as a value. For a number that is not whole the text of the value
    is not known here; the value is made where [wrapWithElement] hands its
    level on as [data], and there only [Number] reads it. *)
Definition Number_value (x : number) : jsval :=
  match x with
  | Whole n => JNum n
  | Between lo => JFrac lo EmptyString
  end.

(** [indentLevel || Number(data) || 0]; an omitted [indentLevel] is [None]. *)
Definition indent_of `{Host} (indentLevel : option number) (data : jsval) : number :=
  match indentLevel with
  | Some l => if number_truthy l then l
              else match ToNumber data with
                   | Some x => if number_truthy x then x else Whole 0
                   | None => Whole 0
                   end
  | None => match ToNumber data with
            | Some x => if number_truthy x then x else Whole 0
            | None => Whole 0
            end
  end.

(** The date branch: [y + '-' + m + '-' + d] with month and day padded to two digits. *)
Definition format_date (d : Date) : string :=
  let y := getFullYear d in
  let m := getMonth d + 1 in
  let dd := getDate d in
  let m := if m <? 10 then "0" +:+ pretty m else pretty m in
  let dd := if dd <? 10 then "0" +:+ pretty dd else pretty dd in
  pretty y +:+ "-" +:+ m +:+ "-" +:+ dd.

Definition as_array (v : jsval) : option (list jsval) :=
  match v with JArr items => Some items | _ => None end.

Fixpoint depth (v : jsval) : nat :=
  match v with
  | JArr items => S (list_max (map depth items))
  | JObj props => S (list_max (map (fun p => depth p.2) props))
  | _ => 0%nat
  end.

(** The measure of the recursion of [wrapWithElement]: a call with a list of
    pairs as [name] goes to the parts of one pair, a call with a list as
    [data] passes it on as [name]. *)
Definition wmeasure (name data : jsval) : nat :=
  (2 * Nat.max (depth name) (depth data) + match as_array name with Some _ => 0 | None => 1 end)%nat.

Definition inspect {A} (a : A) : {b | a = b} := exist _ a eq_refl.

(** [l.map(f).join('')], stopping at the first exception. *)
Fixpoint concat_in {A} (l : list A) : (forall x, In x l -> outcome string) -> outcome string :=
  match l with
  | [] => fun _ => Return EmptyString
  | x :: l' => fun f =>
      s ← f x (or_introl eq_refl);
      rest ← concat_in l' (fun y Hy => f y (or_intror Hy));
      Return (s +:+ rest)
  end.

Fixpoint concat_map {A} (f : A -> outcome string) (l : list A) : outcome string :=
  match l with
  | [] => Return EmptyString
  | x :: l' => s ← f x; rest ← concat_map f l'; Return (s +:+ rest)
  end.

Lemma depth_In (item : jsval) (items : list jsval) :
  In item items -> (depth item < depth (JArr items))%nat.
Proof.
  intros Hin. simpl. apply Nat.lt_succ_r.
  induction items as [|x l IH]; simpl in *; [easy|].
  destruct Hin as [->|Hin]; [lia|]. specialize (IH Hin). lia.
Qed.

Lemma depth_elem (v : jsval) (k : string) :
  (depth (elem v k) <= pred (depth v))%nat.
Proof.
  unfold elem. destruct v; simpl; try lia.
  - destruct (String.eqb k "length"); simpl; [lia|].
    destruct (array_index k); simpl; [|lia].
    unfold string_at. destruct (String.get n s); simpl; lia.
  - destruct (String.eqb k "length"); simpl; [lia|].
    destruct (array_index k) as [i|]; simpl; [|lia].
    destruct (items !! i) as [x|] eqn:Hx; simpl; [|lia].
    apply list_elem_of_lookup_2, list_elem_of_In, depth_In in Hx. simpl in Hx. lia.
  - induction props as [|[k' x] l IH]; simpl; [lia|].
    destruct (String.eqb k' k); simpl; lia.
Qed.

Section XMLBuilder.
Context `{Host}.

Equations? wrapWithElement (name data : jsval) (indentLevel : option number) : outcome string
  by wf (wmeasure name data) lt :=
wrapWithElement name data indentLevel with inspect (as_array name) := {
  | exist _ (Some items) Hname =>
      concat_in items (fun item Hin =>
        if is_nullish item then Throw (TypeError "Cannot read properties of undefined or null")
        else wrapWithElement (elem item "0") (elem item "1")
               (Some (number_succ (indent_of indentLevel data))));
  | exist _ None Hname with inspect (as_array data) := {
    | exist _ (Some children) Hdata =>
        inner ← wrapWithElement data (Number_value (indent_of indentLevel data)) None;
        Return (pad (ceiling (indent_of indentLevel data)) None
                +:+ "<" +:+ ToString name +:+ ">"
                +:+ nl +:+ inner +:+ pad (ceiling (indent_of indentLevel data)) (Some "  ")
                +:+ "</" +:+ ToString name +:+ ">" +:+ nl);
    | exist _ None Hdata =>
        if is_nullish data then Return EmptyString
        else Return (pad (ceiling (indent_of indentLevel data)) None
                +:+ "<" +:+ ToString name +:+ ">"
                +:+ match data with
                    | JDate d => format_date d
                    | _ => escapeXMLString (ToString data)
                    end
                +:+ "</" +:+ ToString name +:+ ">" +:+ nl) } }.
Proof.
  - destruct name; try discriminate. injection Hname as <-.
    apply depth_In in Hin.
    pose proof (depth_elem item "0"). pose proof (depth_elem item "1").
    unfold wmeasure. simpl as_array. destruct (as_array (elem item "0")); lia.
  - destruct data; try discriminate.
    unfold wmeasure. rewrite Hname.
    destruct (indent_of indentLevel (JArr items)); simpl; lia.
Qed.

End XMLBuilder.

(** ** Effects: the log of exchanges *)

(** A computation of the client: it reads the exchanges so far, extends them,
    and returns or throws. *)
Definition M (A : Type) : Type := list event -> outcome A * list event.

#[global] Instance M_ret : MRet M := fun A a log => (Return a, log).

#[global] Instance M_bind : MBind M := fun A B f m log =>
  match m log with
  | (Return a, log') => f a log'
  | (Throw e, log') => (Throw e, log')
  end.

#[global] Instance M_fmap : FMap M := fun A B f m log =>
  match m log with
  | (Return a, log') => (Return (f a), log')
  | (Throw e, log') => (Throw e, log')
  end.

Definition lift {A} (o : outcome A) : M A := fun log => (o, log).

Definition throw {A} (e : exn) : M A := fun log => (Throw e, log).

Section Client.
Context `{Host}.

(** ** Parser and projector (XMLUtils.js) *)

Definition parseString (xml : string) : M jsval :=
  fun log => (xml2js_parseString xml, log ++ [Parsed xml]).

(** [p.hasOwnProperty(k)]: the method is looked up on [p] first, and a
    property of that name on a parsed object is not a function. *)
Definition hasOwnProperty (p : jsval) (k : string) : outcome bool :=
  match p with
  | JUndefined | JNull => Throw (TypeError "Cannot read properties of undefined or null")
  | JObj props =>
      match assoc "hasOwnProperty" props with
      | Some _ => Throw (TypeError "p.hasOwnProperty is not a function")
      | None => Return (bool_decide (is_Some (assoc k props)))
      end
  | _ => Return (bool_decide (is_Some (getOwn p k)))
  end.

(** The loop over the segments of one path, from [p]: the value reached, or
    [None] when [found] became false. The [console.log] of a segment that is
    found is not recorded. *)
Fixpoint walk (p : jsval) (path : list string) : outcome (option jsval) :=
  match path with
  | [] => Return (Some p)
  | seg :: rest =>
      own ← hasOwnProperty p seg;
      if (own : bool) then walk (elem p seg) rest else Return None
  end.

(** The [forEach] over [Object.keys(objList)], in their order, filling [hash]. *)
Fixpoint project_from (res : jsval) (hash : gmap string jsval)
    (objList : list (string * string)) : outcome (gmap string jsval) :=
  match objList with
  | [] => Return hash
  | (keyPath, key) :: rest =>
      found ← walk res (split_on "." keyPath);
      match found with
      | Some p => v ← Get p "0"; project_from res (<[key := v]> hash) rest
      | None => project_from res hash rest
      end
  end.

Definition project (res : jsval) (objList : list (string * string))
  : outcome (gmap string jsval) :=
  project_from res ∅ objList.

Definition xml2obj (xml : string) (objList : list (string * string))
  : M (gmap string jsval) :=
  res ← parseString xml;
  lift (project res objList).

(** ** Client (Client.js) *)

Definition defaultOptions : gmap string jsval :=
  <["eInvoice" := JBool false]>
  (<["requestInvoiceDownload" := JBool false]>
  (<["downloadedInvoiceCount" := JNum 1]>
  (<["responseVersion" := JNum 1]>
  (<["timeout" := JNum 0]> ∅)))).

Record Client := {
  _options : gmap string jsval;
  useToken : bool
}.

(** [o.k] on an options object. *)
Definition prop (o : gmap string jsval) (k : string) : jsval :=
  default JUndefined (o !! k).

(** [typeof v === 'string' && v.trim().length > 1]. *)
Definition valid_field (v : jsval) : bool :=
  match v with
  | JStr s => 1 <? strlen (trim s)
  | _ => false
  end.

(** [merge({}, defaultOptions, options || {})]: a shallow merge, the later
    argument wins. [None] is an omitted (or null) [options]. *)
Definition new_Client (options : option (gmap string jsval)) : outcome Client :=
  let _options := default ∅ options ∪ defaultOptions in
  let useToken := valid_field (prop _options "authToken") in
  _ ← (if negb useToken then
         _ ← assert (valid_field (prop _options "user"))
               "Valid User field missing form client options";
         assert (valid_field (prop _options "password"))
           "Valid Password field missing form client options"
       else Return tt);
  Return {| _options := _options; useToken := useToken |}.

Definition setRequestInvoiceDownload (c : Client) (value : jsval) : Client :=
  {| _options := <["requestInvoiceDownload" := value]> (_options c);
     useToken := useToken c |}.

Definition _getXmlHeader (tag dir : string) : string :=
  "<?xml version=" +:+ dq +:+ "1.0" +:+ dq +:+ " encoding=" +:+ dq +:+ "UTF-8" +:+ dq +:+ "?>" +:+ nl
  +:+ "    <" +:+ tag +:+ " xmlns=" +:+ dq +:+ "http://www.szamlazz.hu/" +:+ tag +:+ dq
  +:+ " xmlns:xsi=" +:+ dq +:+ "http://www.w3.org/2001/XMLSchema-instance" +:+ dq +:+ nl
  +:+ "      xsi:schemaLocation=" +:+ dq +:+ "http://www.szamlazz.hu/" +:+ tag
  +:+ " https://www.szamlazz.hu/szamla/docs/xsds/" +:+ dir +:+ "/" +:+ tag +:+ ".xsd" +:+ dq +:+ ">" +:+ nl.

Definition pair_ (name : string) (value : jsval) : jsval := JArr [JStr name; value].

Definition _getAuthFields (c : Client) : list jsval :=
  if useToken c then
    [ pair_ "szamlaagentkulcs" (prop (_options c) "authToken") ]
  else
    [ pair_ "felhasznalo" (prop (_options c) "user");
      pair_ "jelszo" (prop (_options c) "password") ].

(** [new Error(v)]: the message is the empty string for undefined. *)
Definition Error_message (v : jsval) : string :=
  match v with JUndefined => EmptyString | _ => ToString v end.

(** [this.#axiosInstance.post(url, body, axiosOptions)]. The instance is
    created with no [validateStatus] of its own, so the transport keeps its
    default: a response whose status is not 2xx is not returned, the call is
    rejected with the transport's error. *)
Definition axios_instance_post (fileFieldName data : string) (isBinaryDownload : bool)
  : M HttpResponse :=
  fun log =>
    (match axios_post log fileFieldName data isBinaryDownload with
     | Return response =>
         if (200 <=? status response) && (status response <? 300) then Return response
         else Throw (ForeignError
                       ("Request failed with status code " +:+ pretty (status response)))
     | Throw e => Throw e
     end,
     log ++ [Posted fileFieldName data isBinaryDownload]).

Definition _sendRequest (fileFieldName data : string) (isBinaryDownload : bool)
  : M HttpResponse :=
  httpResponse ← axios_instance_post fileFieldName data isBinaryDownload;
  if negb (status httpResponse =? 200) then
    throw (Error (pretty (status httpResponse) +:+ " " +:+ statusText httpResponse) JUndefined)
  else
    match headers httpResponse !! "szlahu_error_code" with
    | Some code =>
        if negb (String.eqb code EmptyString) then
          match headers httpResponse !! "szlahu_error" with
          | Some szlahu_error =>
              message ← lift (decodeURIComponent (replace_char "+" " " szlahu_error));
              throw (Error message (JStr code))
          | None => throw (TypeError "Cannot read properties of undefined (reading 'replace')")
          end
        else mret tt
    | None => mret tt
    end ;;
    if isBinaryDownload || String.eqb fileFieldName "action-szamla_agent_kifiz" then
      mret httpResponse
    else
      parsedBody ← parseString (resp_data httpResponse);
      xmlszamlavalasz ← lift (Get parsedBody "xmlszamlavalasz");
      if ToBoolean xmlszamlavalasz && ToBoolean (elem xmlszamlavalasz "hibakod") then
        code ← lift (Get (elem xmlszamlavalasz "hibakod") "0");
        throw (Error (Error_message (elem xmlszamlavalasz "hibauzenet")) code)
      else mret httpResponse.

(** *** The collaborators that render themselves *)

(** An invoice, as this component sees it: [invoice._generateXML(indentLevel)]. *)
Record Invoice := { Invoice_generateXML : Z -> outcome string }.

(** A credit entry: [creditEntry._generateXML()]. *)
Record CreditEntry := { CreditEntry_generateXML : outcome string }.

(** An element of the [creditEntries] argument: an instance of [CreditEntry]
    or anything else. *)
Inductive entry_arg :=
| IsCreditEntry (e : CreditEntry)
| NotCreditEntry (v : jsval).

Definition instanceof_CreditEntry (a : entry_arg) : bool :=
  match a with IsCreditEntry _ => true | NotCreditEntry _ => false end.

Definition entry_generateXML (a : entry_arg) : outcome string :=
  match a with
  | IsCreditEntry e => CreditEntry_generateXML e
  | NotCreditEntry _ => Throw (TypeError "creditEntry._generateXML is not a function")
  end.

(** *** Results *)

(** The result object of [issueInvoice] and [reverseInvoice]. A header that
    the response lacks reads as undefined, here [None]; [pdf] is [None] when
    the key is not set. *)
Record InvoiceResult := {
  invoiceId : option string;
  netTotal : option string;
  grossTotal : option string;
  customerAccountUrl : option string;
  pdf : option string
}.

Record CreditResult := {
  credit_invoiceId : option string;
  credit_netTotal : option string;
  credit_grossTotal : option string
}.

(** *** Operations

    Each operation is written as in the source; the expression bound to
    [const xml] is a definition of its own, [<operation>_xml]. *)

Definition getInvoiceData_xml (c : Client) (options : gmap string jsval) : outcome string :=
  fields ← wrapWithElement
            (JArr (_getAuthFields c ++
                   [ pair_ "szamlaszam" (prop options "invoiceId");
                     pair_ "rendelesSzam" (prop options "orderNumber");
                     pair_ "pdf" (prop options "pdf") ]))
            JUndefined None;
  Return (_getXmlHeader "xmlszamlaxml" "agentxml" +:+ fields +:+ "</xmlszamlaxml>").

Definition getInvoiceData (c : Client) (options : gmap string jsval) : M jsval :=
  let hasInvoiceId := valid_field (prop options "invoiceId") in
  let hasOrderNumber := valid_field (prop options "orderNumber") in
  lift (assert (hasInvoiceId || hasOrderNumber)
          "Either invoiceId or orderNumber must be specified") ;;
  xml ← lift (getInvoiceData_xml c options);
  response ← _sendRequest "action-szamla_agent_xml" xml false;
  parsedBody ← parseString (resp_data response);
  lift (Get parsedBody "szamla").

Definition new_Date : M Date := fun log => (Return (Date_now log), log).

Definition reverseInvoice_xml (c : Client) (options : gmap string jsval) (now : Date)
  : outcome string :=
  beallitasok ← wrapWithElement (JStr "beallitasok")
            (JArr (_getAuthFields c ++
                   [ pair_ "eszamla" (JStr (ToString (prop options "eInvoice")));
                     pair_ "szamlaLetoltes"
                       (JStr (ToString (prop options "requestInvoiceDownload"))) ]))
            None;
  fejlec ← wrapWithElement (JStr "fejlec")
            (JArr [ pair_ "szamlaszam" (prop options "invoiceId");
                    pair_ "keltDatum" (JDate now) ])
            None;
  Return (_getXmlHeader "xmlszamlast" "agentst" +:+ beallitasok +:+ fejlec
          +:+ "</xmlszamlast>").

Definition reverseInvoice (c : Client) (options : gmap string jsval) : M InvoiceResult :=
  lift (assert (valid_field (prop options "invoiceId")) "invoiceId must be specified") ;;
  lift (assert (negb (is_undefined (prop options "eInvoice")))
          "eInvoice must be specified") ;;
  lift (assert (negb (is_undefined (prop options "requestInvoiceDownload")))
          "requestInvoiceDownload must be specified") ;;
  now ← new_Date;
  xml ← lift (reverseInvoice_xml c options now);
  httpResponse ← _sendRequest "action-szamla_agent_st" xml true;
  mret {| invoiceId := headers httpResponse !! "szlahu_szamlaszam";
          netTotal := headers httpResponse !! "szlahu_nettovegosszeg";
          grossTotal := headers httpResponse !! "szlahu_bruttovegosszeg";
          customerAccountUrl := headers httpResponse !! "szlahu_vevoifiokurl";
          pdf := if ToBoolean (prop options "requestInvoiceDownload")
                 then Some (resp_data httpResponse) else None |}.

(** [Buffer.from(v, 'base64')]. *)
Definition Buffer_from_base64 (v : jsval) : outcome string :=
  match v with
  | JStr s => Return (base64_decode s)
  | JDate _ | JArr _ | JObj _ => Buffer_from_object v
  | JUndefined | JNull | JBool _ | JNum _ | JFrac _ _ =>
      Throw (TypeError "The first argument must be of type string or an instance of Buffer, ArrayBuffer, or Array or an Array-like Object")
  end.

Definition issueInvoice_xml (c : Client) (invoice : Invoice) : outcome string :=
  beallitasok ← wrapWithElement (JStr "beallitasok")
            (JArr (_getAuthFields c ++
                   [ pair_ "eszamla" (prop (_options c) "eInvoice");
                     pair_ "szamlaLetoltes" (prop (_options c) "requestInvoiceDownload");
                     pair_ "szamlaLetoltesPld" (prop (_options c) "downloadedInvoiceCount");
                     pair_ "valaszVerzio" (prop (_options c) "responseVersion") ]))
            (Some (Whole 1));
  invoiceXML ← Invoice_generateXML invoice 1;
  Return (_getXmlHeader "xmlszamla" "agent" +:+ beallitasok +:+ invoiceXML
          +:+ "</xmlszamla>").

Definition issueInvoice (c : Client) (invoice : Invoice) : M InvoiceResult :=
  xml ← lift (issueInvoice_xml c invoice);
  httpResponse ← _sendRequest "action-xmlagentxmlfile" xml
                   (is_number_lit (prop (_options c) "responseVersion") 1);
  pdf ← (if ToBoolean (prop (_options c) "requestInvoiceDownload") then
           if is_number_lit (prop (_options c) "responseVersion") 1 then
             mret (Some (resp_data httpResponse))
           else if is_number_lit (prop (_options c) "responseVersion") 2 then
             parsed ← xml2obj (resp_data httpResponse) [("xmlszamlavalasz.pdf", "pdf")];
             buffer ← lift (Buffer_from_base64 (prop parsed "pdf"));
             mret (Some buffer)
           else mret None
         else mret None);
  mret {| invoiceId := headers httpResponse !! "szlahu_szamlaszam";
          netTotal := headers httpResponse !! "szlahu_nettovegosszeg";
          grossTotal := headers httpResponse !! "szlahu_bruttovegosszeg";
          customerAccountUrl := headers httpResponse !! "szlahu_vevoifiokurl";
          pdf := pdf |}.

Definition _extractAddress (addressList : jsval) : outcome jsval :=
  if negb (ToBoolean addressList)
     || negb (ToBoolean (elem addressList "taxpayerAddressItem"))
  then Return JNull
  else
    taxpayerAddress ← Get (elem (elem addressList "taxpayerAddressItem") "0")
                        "taxpayerAddress";
    let addressItem := js_or (OptGet taxpayerAddress "0") (JObj []) in
    Return (JObj
      [ ("countryCode", js_or (OptGet (elem addressItem "countryCode") "0") JNull);
        ("postalCode", js_or (OptGet (elem addressItem "postalCode") "0") JNull);
        ("city", js_or (OptGet (elem addressItem "city") "0") JNull);
        ("streetName", js_or (OptGet (elem addressItem "streetName") "0") JNull);
        ("publicPlaceCategory",
           js_or (OptGet (elem addressItem "publicPlaceCategory") "0") JNull);
        ("number", js_or (OptGet (elem addressItem "number") "0") JNull) ]).

(** [typeof taxPayerId === 'number' && /^[0-9]{8}$/.test(taxPayerId.toString())].
    The text of a number that is not whole holds a point or an exponent, so
    the pattern refuses it. *)
Definition valid_taxPayerId (taxPayerId : jsval) : bool :=
  match taxPayerId with
  | JNum n => (String.length (pretty n) =? 8)%nat && all_chars is_digit (pretty n)
  | _ => false
  end.

Definition queryTaxPayer_xml (c : Client) (taxPayerId : jsval) : outcome string :=
  beallitasok ← wrapWithElement (JStr "beallitasok") (JArr (_getAuthFields c))
                  (Some (Whole 1));
  torzsszam ← wrapWithElement (JStr "torzsszam") taxPayerId (Some (Whole 1));
  Return (_getXmlHeader "xmltaxpayer" "agent" +:+ beallitasok +:+ torzsszam
          +:+ "</xmltaxpayer>").

Definition queryTaxPayer (c : Client) (taxPayerId : jsval) : M jsval :=
  lift (assert (valid_taxPayerId taxPayerId) "taxPayerId must be an 8-digit number") ;;
  xml ← lift (queryTaxPayer_xml c taxPayerId);
  response ← _sendRequest "action-szamla_agent_taxpayer" xml false;
  parsedBody ← parseString (resp_data response);
  let cleanParsedBody := removeNamespaces parsedBody in
  cleanParsedBodyData ← lift (Get cleanParsedBody "QueryTaxpayerResponse");
  taxpayerValidityNode ← lift (Get cleanParsedBodyData "taxpayerValidity");
  let taxpayerValidity := is_string_lit (OptGet taxpayerValidityNode "0") "true" in
  if negb taxpayerValidity then
    mret (JObj [ ("taxpayerValidity", JBool false) ])
  else
    let taxpayerData := js_or (OptGet (elem cleanParsedBodyData "taxpayerData") "0") (JObj []) in
    let taxNumberDetail := js_or (OptGet (elem taxpayerData "taxNumberDetail") "0") (JObj []) in
    address ← lift (_extractAddress (OptGet (elem taxpayerData "taxpayerAddressList") "0"));
    mret (JObj
      [ ("taxpayerValidity", JBool taxpayerValidity);
        ("taxpayerId", js_or (OptGet (elem taxNumberDetail "taxpayerId") "0") JNull);
        ("vatCode", js_or (OptGet (elem taxNumberDetail "vatCode") "0") JNull);
        ("countyCode", js_or (OptGet (elem taxNumberDetail "countyCode") "0") JNull);
        ("taxpayerName", js_or (OptGet (elem taxpayerData "taxpayerName") "0") JNull);
        ("taxpayerShortName",
           js_or (OptGet (elem taxpayerData "taxpayerShortName") "0") JNull);
        ("address", address) ]).

Definition registerCreditEntry_xml (c : Client) (options : gmap string jsval)
    (creditEntries : list entry_arg) : outcome string :=
  beallitasok ← wrapWithElement (JStr "beallitasok")
            (JArr (_getAuthFields c ++
                   [ pair_ "szamlaszam" (prop options "invoiceId");
                     pair_ "adoszam" (js_or (prop options "taxNumber") (JStr EmptyString));
                     pair_ "additiv"
                       (JStr (ToString (js_or (prop options "additive") (JBool true)))) ]))
            (Some (Whole 1));
  entries ← concat_map entry_generateXML creditEntries;
  Return (_getXmlHeader "xmlszamlakifiz" "agentkifiz" +:+ beallitasok +:+ entries
          +:+ "</xmlszamlakifiz>").

(** [creditEntries] is [None] when the argument is not an array. *)
Definition registerCreditEntry (c : Client) (options : gmap string jsval)
    (creditEntries : option (list entry_arg)) : M CreditResult :=
  lift (assert (valid_field (prop options "invoiceId")) "invoiceId must be specified") ;;
  lift (assert (match creditEntries with
                | Some l => (0 <? length l)%nat
                | None => false
                end)
          "creditEntries must be specified and must be an array") ;;
  lift (assert (forallb instanceof_CreditEntry (default [] creditEntries))
          "All entries must be instances of CreditEntry") ;;
  xml ← lift (registerCreditEntry_xml c options (default [] creditEntries));
  httpResponse ← _sendRequest "action-szamla_agent_kifiz" xml false;
  mret {| credit_invoiceId := headers httpResponse !! "szlahu_szamlaszam";
          credit_netTotal := headers httpResponse !! "szlahu_nettovegosszeg";
          credit_grossTotal := headers httpResponse !! "szlahu_bruttovegosszeg" |}.

(** *** Every operation, as one call *)

Inductive call :=
| GetInvoiceData (options : gmap string jsval)
| ReverseInvoice (options : gmap string jsval)
| IssueInvoice (invoice : Invoice)
| QueryTaxPayer (taxPayerId : jsval)
| RegisterCreditEntry (options : gmap string jsval) (creditEntries : option (list entry_arg)).

Inductive reply :=
| InvoiceData (szamla : jsval)
| Invoiced (r : InvoiceResult)
| TaxPayer (r : jsval)
| Credited (r : CreditResult).

Definition run (c : Client) (op : call) : M reply :=
  match op with
  | GetInvoiceData options => InvoiceData <$> getInvoiceData c options
  | ReverseInvoice options => Invoiced <$> reverseInvoice c options
  | IssueInvoice invoice => Invoiced <$> issueInvoice c invoice
  | QueryTaxPayer taxPayerId => TaxPayer <$> queryTaxPayer c taxPayerId
  | RegisterCreditEntry options creditEntries =>
      Credited <$> registerCreditEntry c options creditEntries
  end.

End Client.

(** ** Derived notions used by the statements *)

Section Notions.
Context `{Host}.

(** The [map] of the list branch of [wrapWithElement]: every item rendered
    one level below [lvl], the results joined. *)
Definition render_children (items : list jsval) (lvl : number) : outcome string :=
  concat_map (fun item =>
      if is_nullish item then Throw (TypeError "Cannot read properties of undefined or null")
      else wrapWithElement (elem item "0") (elem item "1") (Some (number_succ lvl))) items.

(** The text of a scalar between its tags. *)
Definition scalar_text (data : jsval) : string :=
  match data with
  | JDate d => format_date d
  | _ => escapeXMLString (ToString data)
  end.

(** [<name>text</name>] and a line feed, indented [lvl] levels. *)
Definition element (lvl : Z) (name text : string) : string :=
  pad lvl None +:+ "<" +:+ name +:+ ">" +:+ text +:+ "</" +:+ name +:+ ">" +:+ nl.

(** A string that is not too long for the engine to build. *)
Definition fits (s : string) : Prop :=
  Z.of_nat (String.length s) <= max_string_length.

(** The scalars of an element tree: string, number, boolean, date. *)
Definition is_scalar (v : jsval) : bool :=
  match v with
  | JBool _ | JNum _ | JFrac _ _ | JStr _ | JDate _ => true
  | _ => false
  end.

(** The authentication elements as they stand in a request, [lvl] levels deep. *)
Definition auth_xml (c : Client) (lvl : Z) : string :=
  if useToken c then
    element lvl "szamlaagentkulcs"
      (escapeXMLString (ToString (prop (_options c) "authToken")))
  else
    element lvl "felhasznalo" (escapeXMLString (ToString (prop (_options c) "user")))
    +:+ element lvl "jelszo" (escapeXMLString (ToString (prop (_options c) "password"))).

(** The clients that exist: built by the constructor, then changed by
    [setRequestInvoiceDownload] only. *)
Inductive constructed : Client -> Prop :=
| constructed_new options c :
    new_Client options = Return c -> constructed c
| constructed_set c value :
    constructed c -> constructed (setRequestInvoiceDownload c value).

(** The service answers [r] to whatever document is posted next. *)
Definition answers (log : list event) (r : HttpResponse) : Prop :=
  forall fileFieldName xml isBinaryDownload,
    axios_post log fileFieldName xml isBinaryDownload = Return r.

(** A response that passes the status check and the header check. *)
Definition passes_header_checks (r : HttpResponse) : Prop :=
  status r = 200 /\
  (headers r !! "szlahu_error_code" = None \/
   headers r !! "szlahu_error_code" = Some EmptyString).

(** A parsed body in which [_sendRequest] finds no error node. *)
Definition no_error_node (doc : jsval) : Prop :=
  is_nullish doc = false /\
  ToBoolean (elem doc "xmlszamlavalasz")
  && ToBoolean (elem (elem doc "xmlszamlavalasz") "hibakod") = false.

Definition is_Parsed (e : event) : bool :=
  match e with Parsed _ => true | Posted _ _ _ => false end.








(** Empty after trimming, or not a string at all (a missing field reads as undefined). *)
Definition blank (v : jsval) : bool :=
  match v with
  | JStr s => strlen (trim s) =? 0
  | _ => true
  end.

(** The checks of an operation on its arguments. *)
Definition validate (op : call) : outcome unit :=
  match op with
  | GetInvoiceData options =>
      assert (valid_field (prop options "invoiceId")
              || valid_field (prop options "orderNumber"))
        "Either invoiceId or orderNumber must be specified"
  | ReverseInvoice options =>
      _ ← assert (valid_field (prop options "invoiceId")) "invoiceId must be specified";
      _ ← assert (negb (is_undefined (prop options "eInvoice"))) "eInvoice must be specified";
      assert (negb (is_undefined (prop options "requestInvoiceDownload")))
        "requestInvoiceDownload must be specified"
  | IssueInvoice _ => Return tt
  | QueryTaxPayer taxPayerId =>
      assert (valid_taxPayerId taxPayerId) "taxPayerId must be an 8-digit number"
  | RegisterCreditEntry options creditEntries =>
      _ ← assert (valid_field (prop options "invoiceId")) "invoiceId must be specified";
      _ ← assert (match creditEntries with
                  | Some l => (0 <? length l)%nat
                  | None => false
                  end)
            "creditEntries must be specified and must be an array";
      assert (forallb instanceof_CreditEntry (default [] creditEntries))
        "All entries must be instances of CreditEntry"
  end.

(** The request document of an operation, its form field and its response type. *)
Definition document_of (c : Client) (op : call) (log : list event) : outcome string :=
  match op with
  | GetInvoiceData options => getInvoiceData_xml c options
  | ReverseInvoice options => reverseInvoice_xml c options (Date_now log)
  | IssueInvoice invoice => issueInvoice_xml c invoice
  | QueryTaxPayer taxPayerId => queryTaxPayer_xml c taxPayerId
  | RegisterCreditEntry options creditEntries =>
      registerCreditEntry_xml c options (default [] creditEntries)
  end.

Definition field_of (op : call) : string :=
  match op with
  | GetInvoiceData _ => "action-szamla_agent_xml"
  | ReverseInvoice _ => "action-szamla_agent_st"
  | IssueInvoice _ => "action-xmlagentxmlfile"
  | QueryTaxPayer _ => "action-szamla_agent_taxpayer"
  | RegisterCreditEntry _ _ => "action-szamla_agent_kifiz"
  end.

Definition binary_of (c : Client) (op : call) : bool :=
  match op with
  | ReverseInvoice _ => true
  | IssueInvoice _ => is_number_lit (prop (_options c) "responseVersion") 1
  | _ => false
  end.

(** A computation that neither posts nor forgets: it only appends parser calls. *)
Definition only_parses {A} (m : M A) : Prop :=
  forall log out log', m log = (out, log') ->
    exists tail, log' = log ++ tail /\ forallb is_Parsed tail = true.

(** A computation that leaves the log as it is. *)
Definition silent {A} (m : M A) : Prop := forall log, (m log).2 = log.

(** Where the authentication elements stand in the document of an operation:
    straight under the root for [getInvoiceData], under [beallitasok], which
    opens the document, for the other operations. *)
Definition root_of (op : call) : string * string :=
  match op with
  | GetInvoiceData _ => ("xmlszamlaxml", "agentxml")
  | ReverseInvoice _ => ("xmlszamlast", "agentst")
  | IssueInvoice _ => ("xmlszamla", "agent")
  | QueryTaxPayer _ => ("xmltaxpayer", "agent")
  | RegisterCreditEntry _ _ => ("xmlszamlakifiz", "agentkifiz")
  end.

Definition settings_open (op : call) : string :=
  match op with
  | GetInvoiceData _ => EmptyString
  | ReverseInvoice _ => "<beallitasok>" +:+ nl
  | _ => "  <beallitasok>" +:+ nl
  end.

Definition auth_level (op : call) : Z :=
  match op with
  | GetInvoiceData _ | ReverseInvoice _ => 1
  | _ => 2
  end.

(** The result object of an invoice operation: the four headers and the pdf. *)
Definition summary (r : HttpResponse) (pdf : option string) : InvoiceResult :=
  {| invoiceId := headers r !! "szlahu_szamlaszam";
     netTotal := headers r !! "szlahu_nettovegosszeg";
     grossTotal := headers r !! "szlahu_bruttovegosszeg";
     customerAccountUrl := headers r !! "szlahu_vevoifiokurl";
     pdf := pdf |}.

(** [text] occurs in [s]. *)
Fixpoint occurs (text s : string) : bool :=
  String.prefix text s
  || match s with
     | EmptyString => false
     | String _ s' => occurs text s'
     end.

End Notions.

(** ** A host for examples *)

(** Decimal digits only: enough of [Number] on strings for the examples. *)
Definition digits_only (s : string) : option number :=
  match s with
  | EmptyString => Some (Whole 0)
  | _ => if all_chars is_digit s then Some (Whole (Z.of_N (digits_value 0%N s))) else None
  end.

Lemma digits_only_comma (s : string) :
  has_char "," s = true -> digits_only s = None.
Proof.
  intros Hc. unfold digits_only. destruct s as [|a s]; [discriminate|].
  assert (Hd : all_chars is_digit (String a s) = false).
  { revert Hc. generalize (String a s). clear.
    induction s as [|b s IH]; simpl; [discriminate|].
    destruct (Ascii.eqb b ",") eqn:Hb; simpl.
    - apply Ascii.eqb_eq in Hb. subst b. reflexivity.
    - intros Hs. rewrite (IH Hs). apply andb_false_r. }
  rewrite Hd. reflexivity.
Qed.

(** A host that answers every request with [reply] and parses by [parse];
    it decodes the strings that hold no escape and one base64 text. *)
Definition scripted (reply : outcome HttpResponse) (parse : string -> outcome jsval) : Host :=
  {| StringToNumber := digits_only;
     StringToNumber_comma := digits_only_comma;
     max_string_length := 536870888;
     decodeURIComponent := fun s =>
       if has_char "%" s then Throw (ForeignError "URIError: URI malformed") else Return s;
     xml2js_parseString := parse;
     removeNamespaces := fun v => v;
     base64_decode := fun s => if String.eqb s "JVBERi0=" then "%PDF-" else EmptyString;
     Buffer_from_object := fun _ =>
       Throw (TypeError "The first argument must be of type string");
     axios_post := fun _ _ _ _ => reply;
     Date_now := fun _ =>
       {| getFullYear := 2024; getMonth := 2; getDate := 7;
          getTime := 1709769600000; Date_toString := "Thu Mar 07 2024" |} |}.

Definition ok_response (hs : list (string * string)) (body : string) : HttpResponse :=
  {| status := 200; statusText := "OK"; headers := list_to_map hs; resp_data := body |}.

Definition options_of (l : list (string * jsval)) : gmap string jsval := list_to_map l.

(** ** Clients, documents and responses for examples *)

Definition token_options : gmap string jsval :=
  options_of [("authToken", JStr "97039xbwy2")].

Definition password_options : gmap string jsval :=
  options_of [("user", JStr "demo"); ("password", JStr "secret")].

Definition both_modes_options : gmap string jsval :=
  options_of [("authToken", JStr "97039xbwy2"); ("user", JStr "demo"); ("password", JStr "secret")].

Definition demo_client : Client :=
  {| _options := token_options ∪ defaultOptions; useToken := true |}.

Definition download_client : Client :=
  {| _options :=
       options_of [("authToken", JStr "97039xbwy2");
                   ("requestInvoiceDownload", JBool true);
                   ("responseVersion", JNum 2)] ∪ defaultOptions;
     useToken := true |}.

Definition offline : Host :=
  scripted (Throw (ForeignError "offline")) (fun _ => Throw (ForeignError "not XML")).

Definition demo_invoice : Invoice :=
  {| Invoice_generateXML := fun indentLevel =>
       Return (pad indentLevel None +:+ "<elado>" +:+ nl
               +:+ pad (indentLevel + 1) None +:+ "<bank>OTP</bank>" +:+ nl
               +:+ pad indentLevel None +:+ "</elado>" +:+ nl) |}.

Definition demo_entry : CreditEntry :=
  {| CreditEntry_generateXML :=
       Return ("  <kifizetes>" +:+ nl
               +:+ "    <datum>2024-03-07</datum>" +:+ nl
               +:+ "    <jogcim>atutalas</jogcim>" +:+ nl
               +:+ "    <osszeg>1000</osszeg>" +:+ nl
               +:+ "  </kifizetes>" +:+ nl) |}.

Definition invoice_query_document : string :=
  _getXmlHeader "xmlszamlaxml" "agentxml"
  +:+ "  <szamlaagentkulcs>97039xbwy2</szamlaagentkulcs>" +:+ nl
  +:+ "  <szamlaszam>E-TST-2011-1</szamlaszam>" +:+ nl
  +:+ "</xmlszamlaxml>".


Definition login_error_response : HttpResponse :=
  ok_response [("szlahu_error_code", "3"); ("szlahu_error", "Login+error")] "Login error".

Definition reversal_options : gmap string jsval :=
  options_of [("invoiceId", JStr "E-TST-2011-1"); ("eInvoice", JBool false);
              ("requestInvoiceDownload", JBool false)].

Definition empty_code_response : HttpResponse :=
  ok_response [("szlahu_error_code", EmptyString); ("szlahu_error", "Login+error");
               ("szlahu_szamlaszam", "E-TST-2011-2")] "Login error".

Definition error_document : jsval :=
  JObj [("xmlszamlavalasz",
         JObj [("sikeres", JArr [JStr "false"]);
               ("hibakod", JArr [JStr "57"]);
               ("hibauzenet", JArr [JStr "Hianyzo adat"])])].

Definition invalid_taxpayer_document : jsval :=
  JObj [("QueryTaxpayerResponse",
         JObj [("result", JArr [JObj [("funcCode", JArr [JStr "OK"])]]);
               ("taxpayerValidity", JArr [JStr "false"])])].

Definition pdf_document : jsval :=
  JObj [("xmlszamlavalasz",
         JObj [("sikeres", JArr [JStr "true"]);
               ("szamlaszam", JArr [JStr "E-TST-2011-3"]);
               ("pdf", JArr [JStr "JVBERi0="])])].

Definition pdf_response : HttpResponse :=
  ok_response [("szlahu_szamlaszam", "E-TST-2011-3")] "<xmlszamlavalasz/>".

Definition credit_entry_document : string :=
  _getXmlHeader "xmlszamlakifiz" "agentkifiz"
  +:+ "  <beallitasok>" +:+ nl
  +:+ "    <szamlaagentkulcs>97039xbwy2</szamlaagentkulcs>" +:+ nl
  +:+ "    <szamlaszam>E-TST-2011-1</szamlaszam>" +:+ nl
  +:+ "    <adoszam></adoszam>" +:+ nl
  +:+ "    <additiv>true</additiv>" +:+ nl
  +:+ "  </beallitasok>" +:+ nl
  +:+ "  <kifizetes>" +:+ nl
  +:+ "    <datum>2024-03-07</datum>" +:+ nl
  +:+ "    <jogcim>atutalas</jogcim>" +:+ nl
  +:+ "    <osszeg>1000</osszeg>" +:+ nl
  +:+ "  </kifizetes>" +:+ nl
  +:+ "</xmlszamlakifiz>".

Definition additive_false_options : gmap string jsval :=
  options_of [("invoiceId", JStr "E-TST-2011-1"); ("additive", JBool false)].

(** ** Further notions and data *)



Definition march_seventh : Date :=
  {| getFullYear := 2024; getMonth := 2; getDate := 7;
     getTime := 1709769600000; Date_toString := "Thu Mar 07 2024" |}.

Definition not_found_response : HttpResponse :=
  {| status := 404; statusText := "Not Found";
     headers := list_to_map [("szlahu_error_code", "3"); ("szlahu_error", "Login+error")];
     resp_data := "<html/>" |}.

Definition no_content_response : HttpResponse :=
  {| status := 204; statusText := "No Content"; headers := ∅; resp_data := EmptyString |}.

Definition code_only_response : HttpResponse :=
  ok_response [("szlahu_error_code", "3")] EmptyString.

Definition undecodable_response : HttpResponse :=
  ok_response [("szlahu_error_code", "3"); ("szlahu_error", "100%+sure")] EmptyString.

(** An element that is left out when its value is null or undefined. *)
Definition field_xml (lvl : Z) (name : string) (value : jsval) : string :=
  if is_nullish value then EmptyString else element lvl name (scalar_text value).

(** An element with child elements: the tags on lines of their own. *)
Definition parent_xml (lvl : Z) (name inner : string) : string :=
  pad lvl None +:+ "<" +:+ name +:+ ">" +:+ nl +:+ inner
  +:+ pad lvl None +:+ "</" +:+ name +:+ ">" +:+ nl.

Definition order_query_options : gmap string jsval :=
  options_of [("orderNumber", JStr "WEB-1001"); ("pdf", JBool true)].

Definition reversal_null_options : gmap string jsval :=
  options_of [("invoiceId", JStr "E-TST-2011-1"); ("eInvoice", JNull);
              ("requestInvoiceDownload", JNum 0)].

Definition reversal_text_flag_options : gmap string jsval :=
  options_of [("invoiceId", JStr "E-TST-2011-1"); ("eInvoice", JBool false);
              ("requestInvoiceDownload", JStr "false")].

Definition storno_response : HttpResponse :=
  ok_response [("szlahu_szamlaszam", "E-TST-2011-4")] "%PDF-1.4".

Definition invoice_data_document : jsval :=
  JObj [("szamla", JObj [("alap", JArr [JObj [("szamlaszam", JArr [JStr "E-TST-2011-1"])]])])].

Definition version_three_client : Client :=
  {| _options :=
       options_of [("authToken", JStr "97039xbwy2");
                   ("requestInvoiceDownload", JBool true);
                   ("responseVersion", JNum 3)] ∪ defaultOptions;
     useToken := true |}.

(** A value that stands for a missing one is null: nothing falsy is kept. *)
Definition null_or_truthy (v : jsval) : Prop := v = JNull \/ ToBoolean v = true.

Definition address_list : jsval :=
  JObj [("taxpayerAddressItem",
         JArr [JObj [("taxpayerAddressType", JArr [JStr "HQ"]);
                     ("taxpayerAddress",
                      JArr [JObj [("countryCode", JArr [JStr "HU"]);
                                  ("postalCode", JArr [JStr "1234"]);
                                  ("city", JArr [JStr "BUDAPEST"])]])]])].

Definition bare_taxpayer_document : jsval :=
  JObj [("QueryTaxpayerResponse", JObj [("taxpayerValidity", JArr [JStr "true"])])].

Definition credit_response : HttpResponse :=
  ok_response [("szlahu_szamlaszam", "E-TST-2011-1"); ("szlahu_nettovegosszeg", "1000")]
    "<xmlszamlavalasz><hibakod>57</hibakod></xmlszamlavalasz>".

(** * Properties *)

(** ** The definitions on small inputs *)

Example trim_example : trim "  E-TST-2011-1 " = "E-TST-2011-1".
Proof. reflexivity. Qed.

Example split_on_example : split_on "." "xmlszamlavalasz.pdf" = ["xmlszamlavalasz"; "pdf"].
Proof. reflexivity. Qed.

Example escapeXMLString_example : escapeXMLString "<a&b>" = "&lt;a&amp;b&gt;".
Proof. reflexivity. Qed.

Example format_date_example :
  format_date {| getFullYear := 2024; getMonth := 2; getDate := 7;
                 getTime := 1709769600000; Date_toString := "Thu Mar 07 2024" |}
  = "2024-03-07".
Proof. reflexivity. Qed.

Example wrapWithElement_omits_null :
  let host := offline in
  wrapWithElement (JArr [pair_ "a" JNull]) JUndefined None = Return EmptyString.
Proof. reflexivity. Qed.

Example wrapWithElement_nested :
  let host := offline in
  wrapWithElement (JStr "vevo")
    (JArr [pair_ "nev" (JStr "Kiss & Tsa"); pair_ "irsz" (JNum 1234); pair_ "email" JUndefined])
    (Some (Whole 1))
  = Return ("  <vevo>" +:+ nl
            +:+ "    <nev>Kiss &amp; Tsa</nev>" +:+ nl
            +:+ "    <irsz>1234</irsz>" +:+ nl
            +:+ "  </vevo>" +:+ nl).
Proof. reflexivity. Qed.

Example new_Client_merges_defaults :
  new_Client (Some token_options) = Return demo_client.
Proof. reflexivity. Qed.

(** ** Strings *)

Lemma append_cons (a : ascii) (s t : string) : String a s +:+ t = String a (s +:+ t).
Proof. reflexivity. Qed.

Lemma append_empty_l (s : string) : EmptyString +:+ s = s.
Proof. reflexivity. Qed.

Lemma length_append (s t : string) :
  String.length (s +:+ t) = (String.length s + String.length t)%nat.
Proof.
  induction s as [|a s IH]; [reflexivity|].
  rewrite append_cons. simpl. rewrite IH. reflexivity.
Qed.

Lemma append_assoc (s t u : string) : (s +:+ t) +:+ u = s +:+ t +:+ u.
Proof.
  induction s as [|a s IH]; [reflexivity|].
  rewrite !append_cons, IH. reflexivity.
Qed.

Lemma append_empty_r (s : string) : s +:+ EmptyString = s.
Proof.
  induction s as [|a s IH]; [reflexivity|].
  rewrite append_cons, IH. reflexivity.
Qed.

(** ** The XML builder *)

Section BuilderFacts.
Context `{Host}.

Lemma concat_in_map {A} (f : A -> outcome string) (l : list A) :
  concat_in l (fun x _ => f x) = concat_map f l.
Proof.
  induction l as [|x l IH]; simpl; [reflexivity|].
  rewrite IH. reflexivity.
Qed.

(** The function, clause by clause as the source has it. *)
Lemma wrapWithElement_eq (name data : jsval) (indentLevel : option number) :
  wrapWithElement name data indentLevel =
  let lvl := indent_of indentLevel data in
  match name with
  | JArr items => render_children items lvl
  | _ =>
      match data with
      | JUndefined | JNull => Return EmptyString
      | JArr _ =>
          inner ← wrapWithElement data (Number_value lvl) None;
          Return (pad (ceiling lvl) None +:+ "<" +:+ ToString name +:+ ">"
                  +:+ nl +:+ inner +:+ pad (ceiling lvl) (Some "  ")
                  +:+ "</" +:+ ToString name +:+ ">" +:+ nl)
      | _ => Return (element (ceiling lvl) (ToString name) (scalar_text data))
      end
  end.
Proof.
  rewrite wrapWithElement_equation_1.
  destruct name; simpl; try (destruct data; reflexivity).
  unfold render_children. rewrite <- concat_in_map. reflexivity.
Qed.

Lemma indent_of_explicit (k : Z) (data : jsval) :
  k <> 0 -> indent_of (Some (Whole k)) data = Whole k.
Proof.
  intros Hk. unfold indent_of, number_truthy.
  destruct (Z.eqb_spec k 0); [contradiction|reflexivity].
Qed.

Lemma indent_of_omitted (data : jsval) (x : number) :
  ToNumber data = Some x -> indent_of None data = x.
Proof.
  intros Hx. unfold indent_of. rewrite Hx.
  destruct x as [n|lo]; [|reflexivity]. unfold number_truthy.
  destruct (Z.eqb_spec n 0); simpl; congruence.
Qed.

Lemma indent_of_passed_on (lvl : number) : indent_of None (Number_value lvl) = lvl.
Proof. apply indent_of_omitted. destruct lvl; reflexivity. Qed.

Lemma indent_of_zero (data : jsval) :
  indent_of (Some (Whole 0)) data = indent_of None data.
Proof. reflexivity. Qed.

Lemma wrap_scalar (name : string) (data : jsval) (indentLevel : option number) :
  is_scalar data = true ->
  wrapWithElement (JStr name) data indentLevel =
  Return (element (ceiling (indent_of indentLevel data)) name (scalar_text data)).
Proof.
  intros Hs. rewrite wrapWithElement_eq. destruct data; try discriminate; reflexivity.
Qed.

Lemma pad_length (n : Z) : String.length (pad n None) = (2 * Z.to_nat n)%nat.
Proof.
  unfold pad. destruct (Z.ltb_spec 0 n) as [Hn|Hn].
  - induction (Z.to_nat n) as [|m IH]; simpl; [reflexivity|].
    rewrite length_append, IH. simpl. lia.
  - replace (Z.to_nat n) with 0%nat by lia. reflexivity.
Qed.

(** C10, as the code has it: without an indent level, a scalar that converts
    to a positive number is rendered as many levels deep as the least whole
    number that is not below that number (two spaces a level): the number
    itself when it is whole, the next whole number when it is not. Its own
    value is taken for the level. With an indent level [k > 0] of the
    caller's, the same element stands [k] levels deep. Both are said of an
    element that is not too long for the engine. *)
Theorem wrapWithElement_content_taken_for_indent
    (name : string) (data : jsval) (x : number) :
  is_scalar data = true ->
  ToNumber data = Some x ->
  0 < ceiling x ->
  fits (element (ceiling x) name (scalar_text data)) ->
  wrapWithElement (JStr name) data None
    = Return (element (ceiling x) name (scalar_text data))
  /\ String.length (pad (ceiling x) None) = (2 * Z.to_nat (ceiling x))%nat
  /\ forall k, 0 < k ->
       fits (element k name (scalar_text data)) ->
       wrapWithElement (JStr name) data (Some (Whole k))
         = Return (element k name (scalar_text data)).
Proof.
  intros Hs Hx Hpos Hfits. split; [|split].
  - rewrite (wrap_scalar _ _ _ Hs), (indent_of_omitted _ _ Hx). reflexivity.
  - apply pad_length.
  - intros k Hk _. rewrite (wrap_scalar _ _ _ Hs), indent_of_explicit by lia. reflexivity.
Qed.

End BuilderFacts.

Lemma wrapWithElement_content_taken_for_indent_witness :
  let host := scripted (Throw (ForeignError "offline")) (fun _ => Return JNull) in
  wrapWithElement (JStr "torzsszam") (JNum 3) None
    = Return ("      <torzsszam>3</torzsszam>" +:+ nl)
  /\ wrapWithElement (JStr "torzsszam") (JNum 3) (Some (Whole 1))
    = Return ("  <torzsszam>3</torzsszam>" +:+ nl).
Proof.
  intros host.
  destruct (wrapWithElement_content_taken_for_indent (H := host) "torzsszam" (JNum 3) (Whole 3)
              eq_refl eq_refl ltac:(simpl; lia) ltac:(vm_compute; discriminate))
    as (H1 & _ & H2).
  split; [exact H1 | exact (H2 1 ltac:(lia) ltac:(vm_compute; discriminate))].
Defined.

(** C10 as stated fails: the number 2.5 lies between 2 and 3, and without an
    indent level it is rendered 3 levels deep, six spaces before the tag. *)
Lemma wrapWithElement_rounds_the_indent_up :
  let host := offline in
  is_scalar (JFrac 2 "2.5") = true
  /\ ToNumber (JFrac 2 "2.5") = Some (Between 2)
  /\ wrapWithElement (JStr "pdf") (JFrac 2 "2.5") None
     = Return ("      <pdf>2.5</pdf>" +:+ nl).
Proof. repeat split; reflexivity. Qed.

(** ** The projector *)









Section ProjectorFacts.
Context `{Host}.


End ProjectorFacts.



(** ** The constructor *)

Lemma blank_not_valid (v : jsval) : blank v = true -> valid_field v = false.
Proof.
  destruct v; simpl; try reflexivity. intros Hb.
  apply Z.eqb_eq in Hb. rewrite Hb. reflexivity.
Qed.

Lemma prop_merged_credentials (o : gmap string jsval) (k : string) :
  defaultOptions !! k = None -> prop (o ∪ defaultOptions) k = prop o k.
Proof.
  intros Hk. unfold prop. rewrite lookup_union, Hk.
  destruct (o !! k); reflexivity.
Qed.

(** C4, as the code has it: a token of at least two characters after trimming
    makes the construction succeed in token mode, whatever [user] and
    [password] hold; with a blank or missing token, a user and a password of
    at least two characters make it succeed in password mode, and a blank or
    missing user or password makes it fail. *)
Theorem new_Client_credential_modes (options : option (gmap string jsval)) :
  let o := default ∅ options in
  (valid_field (prop o "authToken") = true ->
     exists c, new_Client options = Return c /\ useToken c = true)
  /\ (blank (prop o "authToken") = true ->
      valid_field (prop o "user") = true ->
      valid_field (prop o "password") = true ->
      exists c, new_Client options = Return c /\ useToken c = false)
  /\ (blank (prop o "authToken") = true ->
      blank (prop o "user") = true \/ blank (prop o "password") = true ->
      exists message, new_Client options = Throw (AssertionError message)).
Proof.
  intros o. unfold new_Client. fold o.
  rewrite !prop_merged_credentials by reflexivity.
  split; [|split].
  - intros ->. simpl. eauto.
  - intros Ht%blank_not_valid -> ->. rewrite Ht. simpl. eauto.
  - intros Ht%blank_not_valid [Hu%blank_not_valid|Hp%blank_not_valid]; rewrite Ht; simpl.
    + rewrite Hu. simpl. eauto.
    + rewrite Hp. destruct (valid_field (prop o "user")); simpl; eauto.
Qed.

Lemma new_Client_credential_modes_witness :
  (exists c, new_Client (Some token_options) = Return c /\ useToken c = true)
  /\ (exists c, new_Client (Some password_options) = Return c /\ useToken c = false)
  /\ (exists message, new_Client None = Throw (AssertionError message)).
Proof.
  split; [|split].
  - apply (new_Client_credential_modes (Some token_options)). reflexivity.
  - apply (new_Client_credential_modes (Some password_options)); reflexivity.
  - apply (new_Client_credential_modes None); [reflexivity|left; reflexivity].
Defined.

(** C4 as stated fails: with a token and a user/password pair supplied
    together the construction succeeds, in token mode. *)
Lemma new_Client_accepts_both_modes :
  match new_Client (Some both_modes_options) with
  | Return c => useToken c = true
  | Throw _ => False
  end.
Proof. reflexivity. Qed.

(** ** The transport *)

Section TransportFacts.
Context `{Host}.

Lemma bind_lift {A B} (o : outcome A) (k : A -> M B) (log : list event) :
  (lift o ≫= k) log =
  match o with
  | Return a => k a log
  | Throw e => (Throw e, log)
  end.
Proof. unfold mbind, M_bind, lift. destruct o; reflexivity. Qed.

Lemma sendRequest_eq (fileFieldName xml : string) (isBinaryDownload : bool)
    (log : list event) (r : HttpResponse) :
  axios_post log fileFieldName xml isBinaryDownload = Return r ->
  status r = 200 ->
  _sendRequest fileFieldName xml isBinaryDownload log =
  let log1 := log ++ [Posted fileFieldName xml isBinaryDownload] in
  match headers r !! "szlahu_error_code" with
  | Some (String a code) =>
      match headers r !! "szlahu_error" with
      | Some szlahu_error =>
          match decodeURIComponent (replace_char "+" " " szlahu_error) with
          | Return message => (Throw (Error message (JStr (String a code))), log1)
          | Throw e => (Throw e, log1)
          end
      | None =>
          (Throw (TypeError "Cannot read properties of undefined (reading 'replace')"), log1)
      end
  | _ =>
      if isBinaryDownload || String.eqb fileFieldName "action-szamla_agent_kifiz" then
        (Return r, log1)
      else
        let log2 := log1 ++ [Parsed (resp_data r)] in
        match xml2js_parseString (resp_data r) with
        | Throw e => (Throw e, log2)
        | Return parsedBody =>
            if is_nullish parsedBody then
              (Throw (TypeError "Cannot read properties of undefined or null"), log2)
            else
              let node := elem parsedBody "xmlszamlavalasz" in
              if ToBoolean node && ToBoolean (elem node "hibakod") then
                (Throw (Error (Error_message (elem node "hibauzenet"))
                          (elem (elem node "hibakod") "0")), log2)
              else (Return r, log2)
        end
  end.
Proof.
  intros Hpost Hstatus.
  unfold _sendRequest, axios_instance_post, mbind, M_bind at 1.
  rewrite Hpost. cbv beta iota. rewrite Hstatus.
  change ((200 <=? 200) && (200 <? 300)) with true. cbv beta iota.
  rewrite Hstatus. simpl negb. cbv iota.
  unfold mbind, M_bind at 1.
  destruct (headers r !! "szlahu_error_code") as [[|a code]|] eqn:Hcode; simpl.
  - destruct (isBinaryDownload || String.eqb fileFieldName "action-szamla_agent_kifiz");
      [reflexivity|].
    unfold mbind, M_bind, parseString, lift, Get, throw.
    destruct (xml2js_parseString (resp_data r)) as [doc|e]; [|reflexivity].
    destruct (is_nullish doc) eqn:Hn; [reflexivity|].
    destruct (ToBoolean (elem doc "xmlszamlavalasz")
              && ToBoolean (elem (elem doc "xmlszamlavalasz") "hibakod")) eqn:Hb;
      [|reflexivity].
    apply andb_prop in Hb as [_ Hb].
    destruct (is_nullish (elem (elem doc "xmlszamlavalasz") "hibakod")) eqn:Hn2;
      [|reflexivity].
    destruct (elem (elem doc "xmlszamlavalasz") "hibakod"); discriminate.
  - destruct (headers r !! "szlahu_error") as [msg|]; [|reflexivity].
    unfold mbind, M_bind, lift, throw.
    destruct (decodeURIComponent (replace_char "+" " " msg)); reflexivity.
  - destruct (isBinaryDownload || String.eqb fileFieldName "action-szamla_agent_kifiz");
      [reflexivity|].
    unfold mbind, M_bind, parseString, lift, Get, throw.
    destruct (xml2js_parseString (resp_data r)) as [doc|e]; [|reflexivity].
    destruct (is_nullish doc) eqn:Hn; [reflexivity|].
    destruct (ToBoolean (elem doc "xmlszamlavalasz")
              && ToBoolean (elem (elem doc "xmlszamlavalasz") "hibakod")) eqn:Hb;
      [|reflexivity].
    apply andb_prop in Hb as [_ Hb].
    destruct (is_nullish (elem (elem doc "xmlszamlavalasz") "hibakod")) eqn:Hn2;
      [|reflexivity].
    destruct (elem (elem doc "xmlszamlavalasz") "hibakod"); discriminate.
Qed.

End TransportFacts.

(** ** Operations: build, send, decode *)

Section OperationFacts.
Context `{Host}.

Lemma silent_lift {A} (o : outcome A) : silent (lift o).
Proof. intros log. reflexivity. Qed.

Lemma silent_mret {A} (a : A) : silent (mret a : M A).
Proof. intros log. reflexivity. Qed.

Lemma silent_bind {A B} (m : M A) (k : A -> M B) :
  silent m -> (forall a, silent (k a)) -> silent (m ≫= k).
Proof.
  intros Hm Hk log. unfold mbind, M_bind. specialize (Hm log).
  destruct (m log) as [[a|e] log1]; simpl in *; subst log1; [apply Hk|reflexivity].
Qed.

Lemma silent_fmap {A B} (f : A -> B) (m : M A) : silent m -> silent (f <$> m).
Proof.
  intros Hm log. unfold fmap, M_fmap. specialize (Hm log).
  destruct (m log) as [[a|e] log1]; exact Hm.
Qed.

Lemma only_parses_lift {A} (o : outcome A) : only_parses (lift o).
Proof. intros log out log' [= <- <-]. exists []. rewrite app_nil_r. auto. Qed.

Lemma only_parses_mret {A} (a : A) : only_parses (mret a : M A).
Proof. intros log out log' [= <- <-]. exists []. rewrite app_nil_r. auto. Qed.

Lemma only_parses_parseString (xml : string) : only_parses (parseString xml).
Proof. intros log out log' [= <- <-]. exists [Parsed xml]. auto. Qed.

Lemma only_parses_bind {A B} (m : M A) (k : A -> M B) :
  only_parses m -> (forall a, only_parses (k a)) -> only_parses (m ≫= k).
Proof.
  intros Hm Hk log out log'. unfold mbind, M_bind.
  destruct (m log) as [[a|e] log1] eqn:Hrun.
  - intros Hrun2. destruct (Hm _ _ _ Hrun) as (t1 & -> & Ht1).
    destruct (Hk a _ _ _ Hrun2) as (t2 & -> & Ht2).
    exists (t1 ++ t2). rewrite app_assoc, forallb_app, Ht1, Ht2. auto.
  - intros [= <- <-]. exact (Hm _ _ _ Hrun).
Qed.

Lemma only_parses_fmap {A B} (f : A -> B) (m : M A) :
  only_parses m -> only_parses (f <$> m).
Proof.
  intros Hm log out log'. unfold fmap, M_fmap.
  destruct (m log) as [[a|e] log1] eqn:Hrun; intros [= <- <-]; exact (Hm _ _ _ Hrun).
Qed.

Lemma only_parses_xml2obj (xml : string) (objList : list (string * string)) :
  only_parses (xml2obj xml objList).
Proof.
  apply only_parses_bind; [apply only_parses_parseString|].
  intros. apply only_parses_lift.
Qed.

Lemma fmap_bind {A B C} (f : B -> C) (m : M A) (k : A -> M B) (log : list event) :
  (f <$> (m ≫= k)) log = (m ≫= (fun a => f <$> k a)) log.
Proof.
  unfold fmap, M_fmap, mbind, M_bind.
  destruct (m log) as [[a|e] log1]; reflexivity.
Qed.

Lemma bind_new_Date {B} (k : Date -> M B) (log : list event) :
  (new_Date ≫= k) log = k (Date_now log) log.
Proof. reflexivity. Qed.

Lemma fmap_throw {A B} (f : A -> B) (m : M A) (e : exn) (log log' : list event) :
  m log = (Throw e, log') -> (f <$> m) log = (Throw e, log').
Proof. intros Hm. unfold fmap, M_fmap. rewrite Hm. reflexivity. Qed.

Create HintDb parses.

#[local] Hint Resolve only_parses_lift only_parses_mret only_parses_parseString
  only_parses_xml2obj : parses.

Ltac quiet :=
  repeat first
    [ apply silent_fmap
    | apply silent_bind; [|intros]
    | apply silent_lift
    | apply silent_mret
    | match goal with |- silent (if ?b then _ else _) => destruct b eqn:? end
    | congruence ].

Ltac parses :=
  repeat first
    [ apply only_parses_fmap
    | apply only_parses_bind; [|intros]
    | match goal with |- only_parses (if ?b then _ else _) => destruct b end
    | solve [auto with parses] ].

(** Every operation either fails on its arguments or on building its
    document, with nothing sent, or posts that document once and goes on
    with parser calls only, and with none after a binary request or a
    credit-entry request. *)
Ltac sent :=
  split; [reflexivity|]; split; [reflexivity|];
  split; [|split]; [| |rewrite fmap_bind; reflexivity];
  [ intros r; parses
  | intros Hunparsed r; first [discriminate Hunparsed | rewrite ?orb_false_r in Hunparsed; quiet] ].

Lemma run_sends (c : Client) (op : call) (log : list event) :
  (exists e, run c op log = (Throw e, log)
             /\ (validate op = Throw e
                 \/ validate op = Return tt /\ document_of c op log = Throw e))
  \/ (exists xml (k : HttpResponse -> M reply),
        validate op = Return tt
        /\ document_of c op log = Return xml
        /\ (forall r, only_parses (k r))
        /\ (binary_of c op || String.eqb (field_of op) "action-szamla_agent_kifiz" = true ->
            forall r, silent (k r))
        /\ run c op log = (_sendRequest (field_of op) xml (binary_of c op) ≫= k) log).
Proof.
  destruct op as [options|options|invoice|taxPayerId|options creditEntries];
    unfold run, validate, document_of, field_of, binary_of, assert.
  - unfold getInvoiceData, assert. rewrite fmap_bind, bind_lift.
    destruct (valid_field (prop options "invoiceId") || valid_field (prop options "orderNumber"));
      [|left; eauto].
    rewrite fmap_bind, bind_lift.
    destruct (getInvoiceData_xml c options) as [xml|e] eqn:Hxml; [|left; eauto].
    right. eexists xml, _. sent.
  - unfold reverseInvoice, assert. rewrite fmap_bind, bind_lift.
    destruct (valid_field (prop options "invoiceId")); [|left; eauto].
    rewrite fmap_bind, bind_lift.
    destruct (negb (is_undefined (prop options "eInvoice"))); [|left; eauto].
    rewrite fmap_bind, bind_lift.
    destruct (negb (is_undefined (prop options "requestInvoiceDownload"))); [|left; eauto].
    rewrite fmap_bind, bind_new_Date, fmap_bind, bind_lift.
    destruct (reverseInvoice_xml c options (Date_now log)) as [xml|e] eqn:Hxml; [|left; eauto].
    right. eexists xml, _. sent.
  - unfold issueInvoice. rewrite fmap_bind, bind_lift.
    destruct (issueInvoice_xml c invoice) as [xml|e] eqn:Hxml; [|left; eauto].
    right. eexists xml, _. sent.
  - unfold queryTaxPayer, assert. rewrite fmap_bind, bind_lift.
    destruct (valid_taxPayerId taxPayerId); [|left; eauto].
    rewrite fmap_bind, bind_lift.
    destruct (queryTaxPayer_xml c taxPayerId) as [xml|e] eqn:Hxml; [|left; eauto].
    right. eexists xml, _. sent.
  - unfold registerCreditEntry, assert. rewrite fmap_bind, bind_lift.
    destruct (valid_field (prop options "invoiceId")); [|left; eauto].
    rewrite fmap_bind, bind_lift.
    destruct (match creditEntries with Some l => (0 <? length l)%nat | None => false end);
      [|left; eauto].
    rewrite fmap_bind, bind_lift.
    destruct (forallb instanceof_CreditEntry (default [] creditEntries)); [|left; eauto].
    rewrite fmap_bind, bind_lift.
    destruct (registerCreditEntry_xml c options (default [] creditEntries)) as [xml|e] eqn:Hxml;
      [|left; eauto].
    right. eexists xml, _. sent.
Qed.

End OperationFacts.

(** ** Errors reported by the service *)

Section ServiceErrors.
Context `{Host}.

(** C1, as the code has it: when the response has status 200 and a non-empty
    error-code header, every operation that sends its document fails, and
    the body is not parsed: the post is the only exchange. When the
    error-message header is there and decodes, the failure is the error whose
    code is the error-code header and whose message is the error-message
    header with [+] read as a space and then URL-decoded. *)
Theorem header_error_precedes_body
    (c : Client) (op : call) (log : list event) (r : HttpResponse)
    (code xml : string) :
  answers log r ->
  status r = 200 ->
  headers r !! "szlahu_error_code" = Some code ->
  code <> EmptyString ->
  validate op = Return tt ->
  document_of c op log = Return xml ->
  (exists e,
     run c op log = (Throw e, log ++ [Posted (field_of op) xml (binary_of c op)]))
  /\ (forall szlahu_error message,
        headers r !! "szlahu_error" = Some szlahu_error ->
        decodeURIComponent (replace_char "+" " " szlahu_error) = Return message ->
        run c op log
        = (Throw (Error message (JStr code)),
           log ++ [Posted (field_of op) xml (binary_of c op)])).
Proof.
  intros Hans Hstatus Hcode Hne Hval Hdoc.
  destruct (run_sends c op log) as [(e & _ & [Hv|[_ Hd]])|(xml' & k & _ & Hd & _ & _ & ->)];
    [congruence..|].
  assert (xml' = xml) as -> by congruence.
  unfold mbind, M_bind.
  rewrite (sendRequest_eq _ _ _ _ r (Hans _ _ _) Hstatus), Hcode.
  destruct code as [|a code]; [contradiction|].
  split.
  - destruct (headers r !! "szlahu_error") as [szlahu_error|]; [|eauto].
    destruct (decodeURIComponent (replace_char "+" " " szlahu_error)); eauto.
  - intros szlahu_error message -> ->. reflexivity.
Qed.

Lemma sendRequest_checked (fileFieldName xml : string) (isBinaryDownload : bool)
    (log : list event) (r : HttpResponse) :
  axios_post log fileFieldName xml isBinaryDownload = Return r ->
  passes_header_checks r ->
  _sendRequest fileFieldName xml isBinaryDownload log =
  let log1 := log ++ [Posted fileFieldName xml isBinaryDownload] in
  if isBinaryDownload || String.eqb fileFieldName "action-szamla_agent_kifiz" then
    (Return r, log1)
  else
    let log2 := log1 ++ [Parsed (resp_data r)] in
    match xml2js_parseString (resp_data r) with
    | Throw e => (Throw e, log2)
    | Return parsedBody =>
        if is_nullish parsedBody then
          (Throw (TypeError "Cannot read properties of undefined or null"), log2)
        else
          let node := elem parsedBody "xmlszamlavalasz" in
          if ToBoolean node && ToBoolean (elem node "hibakod") then
            (Throw (Error (Error_message (elem node "hibauzenet"))
                      (elem (elem node "hibakod") "0")), log2)
          else (Return r, log2)
    end.
Proof.
  intros Hpost [Hstatus Hcode].
  rewrite (sendRequest_eq _ _ _ _ r Hpost Hstatus).
  destruct Hcode as [-> | ->]; reflexivity.
Qed.

Lemma sendRequest_log_unparsed (fileFieldName xml : string) (isBinaryDownload : bool)
    (log : list event) :
  isBinaryDownload || String.eqb fileFieldName "action-szamla_agent_kifiz" = true ->
  (_sendRequest fileFieldName xml isBinaryDownload log).2
  = log ++ [Posted fileFieldName xml isBinaryDownload].
Proof.
  intros Hun. unfold _sendRequest, axios_instance_post, mbind, M_bind at 1.
  destruct (axios_post log fileFieldName xml isBinaryDownload) as [r|e]; [|reflexivity].
  destruct ((200 <=? status r) && (status r <? 300)); [|reflexivity].
  destruct (negb (status r =? 200)); [reflexivity|].
  unfold mbind, M_bind at 1. rewrite Hun.
  destruct (headers r !! "szlahu_error_code") as [code|]; [|reflexivity].
  destruct (negb (String.eqb code EmptyString)); [|reflexivity].
  destruct (headers r !! "szlahu_error") as [msg|]; [|reflexivity].
  unfold mbind, M_bind, lift, throw.
  destruct (decodeURIComponent (replace_char "+" " " msg)); reflexivity.
Qed.

Lemma run_unparsed (c : Client) (op : call) (log : list event) :
  binary_of c op || String.eqb (field_of op) "action-szamla_agent_kifiz" = true ->
  List.filter is_Parsed (run c op log).2 = List.filter is_Parsed log.
Proof.
  intros Hun.
  destruct (run_sends c op log) as [(e & -> & _)|(xml & k & _ & _ & _ & Hsilent & ->)];
    [reflexivity|].
  unfold mbind, M_bind.
  pose proof (sendRequest_log_unparsed (field_of op) xml (binary_of c op) log Hun) as Hlog.
  destruct (_sendRequest (field_of op) xml (binary_of c op) log) as [[r|e] log1];
    simpl in Hlog; subst log1.
  - rewrite (Hsilent Hun r (log ++ [Posted (field_of op) xml (binary_of c op)])).
    rewrite List.filter_app. simpl. apply app_nil_r.
  - simpl. rewrite List.filter_app. simpl. apply app_nil_r.
Qed.

(** C8: once the status and the header checks are passed, a response to a
    binary request or to the credit-entry field is returned as it is, with no
    call of the parser; any other body is parsed, once, and when the parsed
    document has [xmlszamlavalasz.hibakod] the call fails with the error
    whose message is [hibauzenet] and whose code is the first [hibakod];
    without that node the response is returned, and a parser error is thrown
    on. The operations that ask for binary data, and the credit-entry
    operation, never call the parser. *)
Theorem sendRequest_parses_unless_binary_or_credit
    (fileFieldName xml : string) (isBinaryDownload : bool)
    (log : list event) (r : HttpResponse) :
  axios_post log fileFieldName xml isBinaryDownload = Return r ->
  passes_header_checks r ->
  (isBinaryDownload = true \/ fileFieldName = "action-szamla_agent_kifiz" ->
     _sendRequest fileFieldName xml isBinaryDownload log
     = (Return r, log ++ [Posted fileFieldName xml isBinaryDownload]))
  /\ (isBinaryDownload = false -> fileFieldName <> "action-szamla_agent_kifiz" ->
      exists out,
        _sendRequest fileFieldName xml isBinaryDownload log
        = (out, log ++ [Posted fileFieldName xml isBinaryDownload; Parsed (resp_data r)])
        /\ (forall doc node code rest,
              xml2js_parseString (resp_data r) = Return doc ->
              getOwn doc "xmlszamlavalasz" = Some node ->
              getOwn node "hibakod" = Some (JArr (code :: rest)) ->
              out = Throw (Error (Error_message (elem node "hibauzenet")) code))
        /\ (forall doc,
              xml2js_parseString (resp_data r) = Return doc ->
              no_error_node doc -> out = Return r)
        /\ (forall e, xml2js_parseString (resp_data r) = Throw e -> out = Throw e))
  /\ (forall c op log',
        binary_of c op || String.eqb (field_of op) "action-szamla_agent_kifiz" = true ->
        List.filter is_Parsed (run c op log').2 = List.filter is_Parsed log').
Proof.
  intros Hpost Hpass.
  split; [|split; [|intros c op log'; apply run_unparsed]]; revert Hpost Hpass.
  all: intros Hpost Hpass.
  all: rewrite (sendRequest_checked _ _ _ _ r Hpost Hpass); cbv zeta.
  - intros [-> | ->]; [reflexivity|rewrite orb_true_r; reflexivity].
  - intros -> Hf. apply String.eqb_neq in Hf. rewrite Hf. simpl orb. cbv iota.
    rewrite <- app_assoc. simpl app.
    destruct (xml2js_parseString (resp_data r)) as [doc|e] eqn:Hparse.
    + destruct (is_nullish doc) eqn:Hnull;
        [|destruct (ToBoolean (elem doc "xmlszamlavalasz")
                    && ToBoolean (elem (elem doc "xmlszamlavalasz") "hibakod")) eqn:Hnode].
      all: eexists; split; [reflexivity|]; repeat split; try (intros; discriminate).
      * intros doc' node code rest [= <-] Hown. destruct doc; discriminate.
      * intros doc' [= <-] [Hn _]. congruence.
      * intros doc' node code rest [= <-] Hown Hhib.
        unfold elem. rewrite Hown. simpl. unfold elem. rewrite Hhib. simpl.
        destruct (String.eqb "0" "length") eqn:E; [discriminate|reflexivity].
      * intros doc' [= <-] [_ Hno]. congruence.
      * intros doc' node code rest [= <-] Hown Hhib. exfalso.
        unfold elem in Hnode. rewrite Hown in Hnode. simpl in Hnode.
        unfold elem in Hnode. rewrite Hhib in Hnode. simpl in Hnode.
        rewrite andb_true_r in Hnode.
        destruct node; simpl in *; discriminate.
    + eexists; split; [reflexivity|]. repeat split; try (intros; discriminate).
      intros e' [= <-]. reflexivity.
Qed.

End ServiceErrors.

(** ** Request documents *)

Section DocumentFacts.
Context `{Host}.

Lemma has_char_append (c : ascii) (s t : string) :
  has_char c (s +:+ t) = has_char c s || has_char c t.
Proof.
  induction s as [|a s IH]; [reflexivity|].
  rewrite append_cons. simpl. rewrite IH. apply orb_assoc.
Qed.

(** A list of two items or more prints with a comma: it is no number. *)
Lemma ToNumber_list (x y : jsval) (l : list jsval) :
  ToNumber (JArr (x :: y :: l)) = None.
Proof.
  unfold ToNumber. apply StringToNumber_comma.
  cbn [ToString map join_str]. rewrite !has_char_append. simpl.
  apply orb_true_r.
Qed.

Lemma wrap_parent (name : string) (items : list jsval) (indentLevel : option number) :
  wrapWithElement (JStr name) (JArr items) indentLevel =
  let lvl := indent_of indentLevel (JArr items) in
  inner ← render_children items lvl;
  Return (pad (ceiling lvl) None +:+ "<" +:+ name +:+ ">" +:+ nl +:+ inner
          +:+ pad (ceiling lvl) (Some "  ") +:+ "</" +:+ name +:+ ">" +:+ nl).
Proof.
  rewrite wrapWithElement_eq. cbv zeta. cbn [ToString].
  rewrite (wrapWithElement_eq (JArr items)). cbv zeta.
  rewrite indent_of_passed_on. reflexivity.
Qed.

Lemma render_children_cons (name : string) (value : jsval) (rest : list jsval)
    (lvl : number) :
  render_children (pair_ name value :: rest) lvl =
  s ← wrapWithElement (JStr name) value (Some (number_succ lvl));
  r ← render_children rest lvl;
  Return (s +:+ r).
Proof. reflexivity. Qed.

Lemma render_field (name value : string) (rest : list jsval) (lvl : Z) :
  lvl + 1 <> 0 ->
  render_children (pair_ name (JStr value) :: rest) (Whole lvl) =
  r ← render_children rest (Whole lvl);
  Return (element (lvl + 1) name (escapeXMLString value) +:+ r).
Proof.
  intros Hl. rewrite render_children_cons, wrap_scalar by reflexivity.
  cbn [number_succ]. rewrite indent_of_explicit by exact Hl. reflexivity.
Qed.

Lemma constructed_credentials (c : Client) :
  constructed c ->
  if useToken c then exists s, prop (_options c) "authToken" = JStr s
  else exists u p, prop (_options c) "user" = JStr u
                   /\ prop (_options c) "password" = JStr p.
Proof.
  induction 1 as [options c Hnew|c value _ IH].
  - unfold new_Client in Hnew.
    set (o := default ∅ options ∪ defaultOptions) in *.
    destruct (valid_field (prop o "authToken")) eqn:Ht; simpl in Hnew.
    + injection Hnew as <-. cbn [useToken _options].
      destruct (prop o "authToken"); try discriminate. eauto.
    + destruct (valid_field (prop o "user")) eqn:Hu; simpl in Hnew; [|discriminate].
      destruct (valid_field (prop o "password")) eqn:Hp; simpl in Hnew; [|discriminate].
      injection Hnew as <-. cbn [useToken _options].
      destruct (prop o "user"); try discriminate.
      destruct (prop o "password"); try discriminate. eauto.
  - simpl. unfold prop in *. rewrite !lookup_insert_ne by discriminate. exact IH.
Qed.

(** The authentication fields, first in a list of fields, are rendered first. *)
Lemma render_auth_first (c : Client) (others : list jsval) (lvl : Z) :
  constructed c ->
  lvl + 1 <> 0 ->
  render_children (_getAuthFields c ++ others) (Whole lvl) =
  r ← render_children others (Whole lvl);
  Return (auth_xml c (lvl + 1) +:+ r).
Proof.
  intros Hc Hl. apply constructed_credentials in Hc.
  unfold _getAuthFields, auth_xml. destruct (useToken c).
  - destruct Hc as (s & ->). cbn [app ToString]. rewrite render_field by exact Hl.
    reflexivity.
  - destruct Hc as (u & p & -> & ->). cbn [app ToString].
    rewrite !render_field by exact Hl.
    destruct (render_children others (Whole lvl)); [|reflexivity].
    simpl. rewrite append_assoc. reflexivity.
Qed.

Lemma document_shape (c : Client) (op : call) (log : list event) (xml : string) :
  constructed c ->
  document_of c op log = Return xml ->
  exists rest,
    xml = _getXmlHeader (root_of op).1 (root_of op).2
          +:+ settings_open op +:+ auth_xml c (auth_level op) +:+ rest.
Proof.
  intros Hc.
  destruct op as [options|options|invoice|taxPayerId|options creditEntries];
    unfold document_of, root_of, settings_open, auth_level, fst, snd.
  - unfold getInvoiceData_xml. rewrite wrapWithElement_eq. cbv zeta.
    change (indent_of None JUndefined) with (Whole 0).
    rewrite (render_auth_first c _ 0 Hc) by lia.
    destruct (render_children _ (Whole 0)) as [r|]; [|discriminate].
    intros [= <-]. eexists. simpl mbind. rewrite !append_assoc. reflexivity.
  - unfold reverseInvoice_xml. rewrite (wrap_parent "beallitasok"). cbv zeta.
    assert (Hlvl : forall others,
      indent_of None (JArr (_getAuthFields c ++
        pair_ "eszamla" (JStr (ToString (prop options "eInvoice"))) :: others)) = Whole 0).
    { intros others. unfold indent_of, _getAuthFields.
      destruct (useToken c); cbn [app]; rewrite ToNumber_list; reflexivity. }
    rewrite Hlvl, (render_auth_first c _ 0 Hc) by lia.
    destruct (render_children _ (Whole 0)) as [r|]; [|discriminate]. simpl mbind.
    destruct (wrapWithElement (JStr "fejlec") _ None) as [f|]; [|discriminate].
    intros [= <-]. eexists. simpl. rewrite !append_assoc. reflexivity.
  - unfold issueInvoice_xml. rewrite wrap_parent. cbv zeta.
    rewrite indent_of_explicit by lia. rewrite (render_auth_first c _ 1 Hc) by lia.
    destruct (render_children _ (Whole 1)) as [r|]; [|discriminate]. simpl mbind.
    destruct (Invoice_generateXML invoice 1) as [f|]; [|discriminate].
    intros [= <-]. eexists. simpl. rewrite !append_assoc. reflexivity.
  - unfold queryTaxPayer_xml. rewrite wrap_parent. cbv zeta.
    rewrite indent_of_explicit by lia.
    rewrite <- (app_nil_r (_getAuthFields c)), (render_auth_first c _ 1 Hc) by lia.
    simpl mbind.
    destruct (wrapWithElement (JStr "torzsszam") taxPayerId (Some (Whole 1))) as [f|];
      [|discriminate].
    intros [= <-]. eexists. simpl. rewrite !append_assoc. reflexivity.
  - unfold registerCreditEntry_xml. rewrite wrap_parent. cbv zeta.
    rewrite indent_of_explicit by lia. rewrite (render_auth_first c _ 1 Hc) by lia.
    destruct (render_children _ (Whole 1)) as [r|]; [|discriminate]. simpl mbind.
    destruct (concat_map entry_generateXML _) as [f|]; [|discriminate].
    intros [= <-]. eexists. simpl. rewrite !append_assoc. reflexivity.
Qed.

End DocumentFacts.

Section DocumentsSent.
Context `{Host}.

Lemma sendRequest_log (fileFieldName xml : string) (isBinaryDownload : bool)
    (log : list event) :
  exists tail,
    (_sendRequest fileFieldName xml isBinaryDownload log).2
    = log ++ Posted fileFieldName xml isBinaryDownload :: tail
    /\ forallb is_Parsed tail = true.
Proof.
  unfold _sendRequest, axios_instance_post, mbind, M_bind at 1.
  destruct (axios_post log fileFieldName xml isBinaryDownload) as [r|e];
    [|exists []; auto].
  destruct ((200 <=? status r) && (status r <? 300)); [|exists []; auto].
  destruct (negb (status r =? 200)); [exists []; auto|].
  assert (Hrest : exists tail,
    ((if isBinaryDownload || String.eqb fileFieldName "action-szamla_agent_kifiz"
      then mret r
      else parsedBody ← parseString (resp_data r);
           xmlszamlavalasz ← lift (Get parsedBody "xmlszamlavalasz");
           if ToBoolean xmlszamlavalasz && ToBoolean (elem xmlszamlavalasz "hibakod")
           then code ← lift (Get (elem xmlszamlavalasz "hibakod") "0");
                throw (Error (Error_message (elem xmlszamlavalasz "hibauzenet")) code)
           else mret r) (log ++ [Posted fileFieldName xml isBinaryDownload])).2
    = log ++ Posted fileFieldName xml isBinaryDownload :: tail
    /\ forallb is_Parsed tail = true).
  { destruct (isBinaryDownload || String.eqb fileFieldName "action-szamla_agent_kifiz");
      [exists []; auto|].
    exists [Parsed (resp_data r)]. split; [|reflexivity].
    rewrite (app_assoc log [_] [_] : log ++ [_; _] = _).
    unfold mbind, M_bind, parseString, lift, throw.
    destruct (xml2js_parseString (resp_data r)) as [doc|]; [|reflexivity].
    destruct (Get doc "xmlszamlavalasz") as [node|]; [|reflexivity].
    destruct (ToBoolean node && ToBoolean (elem node "hibakod")); [|reflexivity].
    destruct (Get (elem node "hibakod") "0"); reflexivity. }
  unfold mbind, M_bind at 1.
  destruct (headers r !! "szlahu_error_code") as [code|]; [|exact Hrest].
  destruct (negb (String.eqb code EmptyString)); [|exact Hrest].
  destruct (headers r !! "szlahu_error") as [msg|]; [|exists []; auto].
  unfold mbind, M_bind, lift, throw.
  destruct (decodeURIComponent (replace_char "+" " " msg)); exists []; auto.
Qed.

(** C9, as the code has it: whatever an operation posts is a document that
    opens with the XML header of its root element; in the document of
    [getInvoiceData] the authentication elements follow at once, as the first
    children of the root (there is no settings element); in every other
    document the settings element [beallitasok] follows at once and the
    authentication elements are its first children. They are a single
    [szamlaagentkulcs] in token mode, [felhasznalo] then [jelszo] otherwise. *)
Theorem auth_fields_open_every_document
    (c : Client) (op : call) (log : list event)
    (fileFieldName xml : string) (isBinaryDownload : bool) :
  constructed c ->
  In (Posted fileFieldName xml isBinaryDownload) (run c op log).2 ->
  In (Posted fileFieldName xml isBinaryDownload) log
  \/ exists rest,
       xml = _getXmlHeader (root_of op).1 (root_of op).2
             +:+ settings_open op +:+ auth_xml c (auth_level op) +:+ rest.
Proof.
  intros Hc.
  destruct (run_sends c op log) as [(e & -> & _)|(doc & k & _ & Hdoc & Hk & _ & ->)];
    [auto|].
  unfold mbind, M_bind.
  destruct (sendRequest_log (field_of op) doc (binary_of c op) log) as (tail & Hlog & Htail).
  destruct (_sendRequest (field_of op) doc (binary_of c op) log) as [[r|e] log1];
    simpl in Hlog; subst log1.
  - destruct (k r (log ++ Posted (field_of op) doc (binary_of c op) :: tail))
      as [out log2] eqn:Hrun.
    destruct (Hk r _ _ _ Hrun) as (tail2 & -> & Htail2). simpl.
    rewrite <- app_assoc. simpl. rewrite !in_app_iff. simpl. rewrite in_app_iff.
    intros [Hin|[[= <- <- <-]|[Hin|Hin]]].
    + auto.
    + right. exact (document_shape c op log doc Hc Hdoc).
    + rewrite forallb_forall in Htail. apply Htail in Hin. discriminate.
    + rewrite forallb_forall in Htail2. apply Htail2 in Hin. discriminate.
  - simpl. rewrite in_app_iff. simpl.
    intros [Hin|[[= <- <- <-]|Hin]].
    + auto.
    + right. exact (document_shape c op log doc Hc Hdoc).
    + rewrite forallb_forall in Htail. apply Htail in Hin. discriminate.
Qed.

Lemma js_or_falsy (a b : jsval) : ToBoolean a = false -> js_or a b = b.
Proof. intros Ha. unfold js_or. rewrite Ha. reflexivity. Qed.

(** C3, where the code departs from it: when the caller passes
    [additive: false] (or any falsy value), the document of
    [registerCreditEntry] still holds [<additiv>true</additiv>] among the
    settings. *)
Theorem registerCreditEntry_additiv_true_for_falsy
    (c : Client) (options : gmap string jsval) (creditEntries : list entry_arg)
    (xml : string) :
  constructed c ->
  valid_field (prop options "invoiceId") = true ->
  ToBoolean (prop options "additive") = false ->
  registerCreditEntry_xml c options creditEntries = Return xml ->
  exists before after,
    xml = before +:+ element 2 "additiv" "true" +:+ after.
Proof.
  intros Hc Hid Hadd. unfold registerCreditEntry_xml.
  rewrite wrap_parent. cbv zeta. rewrite indent_of_explicit by lia.
  rewrite (render_auth_first c _ 1 Hc) by lia.
  destruct (prop options "invoiceId") as [| | | | |invoiceId| | |]; try discriminate.
  rewrite render_field by lia. rewrite render_children_cons.
  rewrite (js_or_falsy _ (JBool true) Hadd). cbn [ToString].
  destruct (wrapWithElement (JStr "adoszam") _ (Some (number_succ (Whole 1)))) as [adoszam|];
    [|discriminate].
  rewrite render_field by lia. simpl mbind.
  destruct (concat_map entry_generateXML creditEntries) as [entries|]; [|discriminate].
  intros [= <-]. simpl.
  eexists (_getXmlHeader "xmlszamlakifiz" "agentkifiz" +:+ pad 1 None +:+ "<beallitasok>" +:+ nl
           +:+ auth_xml c 2 +:+ element 2 "szamlaszam" (escapeXMLString invoiceId) +:+ adoszam), _.
  rewrite !append_assoc. reflexivity.
Qed.

(** With neither field usable the call is refused before anything is sent. *)
Lemma getInvoiceData_refuses_unusable_fields
    (c : Client) (options : gmap string jsval) (log : list event) :
  valid_field (prop options "invoiceId") || valid_field (prop options "orderNumber") = false ->
  getInvoiceData c options log
  = (Throw (AssertionError "Either invoiceId or orderNumber must be specified"), log).
Proof.
  intros Hno. unfold getInvoiceData. rewrite bind_lift, Hno. reflexivity.
Qed.

(** C5, where the code departs from it: an order number of exactly one
    character after trimming is a non-empty trimmed string, and the call is
    refused by the assertion before anything is sent. *)
Theorem getInvoiceData_rejects_one_character
    (c : Client) (orderNumber : string) (log : list event) :
  strlen (trim orderNumber) = 1 ->
  getInvoiceData c (options_of [("orderNumber", JStr orderNumber)]) log
  = (Throw (AssertionError "Either invoiceId or orderNumber must be specified"), log).
Proof.
  intros Hlen. unfold getInvoiceData. rewrite bind_lift.
  change (prop (options_of [("orderNumber", JStr orderNumber)]) "invoiceId") with JUndefined.
  change (prop (options_of [("orderNumber", JStr orderNumber)]) "orderNumber")
    with (JStr orderNumber).
  simpl valid_field. rewrite Hlen. reflexivity.
Qed.

End DocumentsSent.

Lemma demo_client_constructed `{Host} : constructed demo_client.
Proof. apply (constructed_new (Some token_options)). reflexivity. Qed.

Lemma auth_fields_open_every_document_witness :
  let host := scripted (Return (ok_response [] "not XML"))
                (fun _ => Throw (ForeignError "not XML")) in
  exists rest,
    invoice_query_document
    = _getXmlHeader "xmlszamlaxml" "agentxml"
      +:+ "  <szamlaagentkulcs>97039xbwy2</szamlaagentkulcs>" +:+ nl +:+ rest.
Proof.
  intros host.
  destruct (auth_fields_open_every_document (H := host) demo_client
              (GetInvoiceData (options_of [("invoiceId", JStr "E-TST-2011-1")])) []
              "action-szamla_agent_xml" invoice_query_document false
              demo_client_constructed)
    as [[]|Hshape].
  - left. reflexivity.
  - exact Hshape.
Defined.

(** C9 as stated fails: the document of [getInvoiceData] has no settings
    element; the authentication element is a child of the root. *)
Lemma getInvoiceData_has_no_settings_element :
  let host := offline in
  getInvoiceData_xml demo_client (options_of [("invoiceId", JStr "E-TST-2011-1")])
  = Return invoice_query_document
  /\ occurs "<beallitasok" invoice_query_document = false.
Proof. split; reflexivity. Qed.

(** The document of [registerCreditEntry] for [additive: false] and one entry. *)
Example registerCreditEntry_document_for_additive_false :
  let host := offline in
  registerCreditEntry_xml demo_client additive_false_options [IsCreditEntry demo_entry]
  = Return credit_entry_document.
Proof. reflexivity. Qed.

Lemma registerCreditEntry_additiv_true_for_falsy_witness :
  let host := offline in
  exists before after,
    credit_entry_document = before +:+ element 2 "additiv" "true" +:+ after.
Proof.
  intros host.
  exact (registerCreditEntry_additiv_true_for_falsy (H := host) demo_client
           additive_false_options [IsCreditEntry demo_entry] credit_entry_document
           demo_client_constructed eq_refl eq_refl eq_refl).
Defined.

Lemma getInvoiceData_rejects_one_character_witness :
  let host := offline in
  getInvoiceData demo_client (options_of [("orderNumber", JStr "7")]) []
  = (Throw (AssertionError "Either invoiceId or orderNumber must be specified"), []).
Proof.
  intros host.
  exact (getInvoiceData_rejects_one_character (H := host) demo_client "7" [] eq_refl).
Defined.

Lemma header_error_precedes_body_witness :
  let host := scripted (Return login_error_response)
                (fun _ => Throw (ForeignError "not XML")) in
  exists xml,
    run demo_client (QueryTaxPayer (JNum 12345678)) []
    = (Throw (Error "Login error" (JStr "3")),
       [Posted "action-szamla_agent_taxpayer" xml false]).
Proof.
  intros host. eexists.
  refine (proj2 (header_error_precedes_body (H := host) demo_client
                   (QueryTaxPayer (JNum 12345678)) [] login_error_response "3" _
                   (fun _ _ _ => eq_refl) eq_refl eq_refl _ eq_refl eq_refl)
            "Login+error" "Login error" eq_refl eq_refl).
  discriminate.
Defined.

(** C1 as stated fails: a response of status 200 whose headers hold the
    error-code field, with an empty value, is taken for a success. *)
Lemma empty_error_code_is_taken_for_success :
  let host := scripted (Return empty_code_response)
                (fun _ => Throw (ForeignError "not XML")) in
  status empty_code_response = 200
  /\ headers empty_code_response !! "szlahu_error_code" = Some EmptyString
  /\ (run demo_client (ReverseInvoice reversal_options) []).1
     = Return (Invoiced {| invoiceId := Some "E-TST-2011-2"; netTotal := None;
                           grossTotal := None; customerAccountUrl := None;
                           pdf := None |}).
Proof. repeat split; reflexivity. Qed.

Lemma sendRequest_parses_unless_binary_or_credit_witness :
  let host := scripted (Return (ok_response [] "<xmlszamlavalasz/>"))
                (fun _ => Return error_document) in
  _sendRequest "action-szamla_agent_kifiz" "<xmlszamlakifiz/>" false []
  = (Return (ok_response [] "<xmlszamlavalasz/>"),
     [Posted "action-szamla_agent_kifiz" "<xmlszamlakifiz/>" false])
  /\ _sendRequest "action-xmlagentxmlfile" "<xmlszamla/>" false []
     = (Throw (Error "Hianyzo adat" (JStr "57")),
        [Posted "action-xmlagentxmlfile" "<xmlszamla/>" false; Parsed "<xmlszamlavalasz/>"]).
Proof.
  intros host.
  assert (Hpass : passes_header_checks (ok_response [] "<xmlszamlavalasz/>"))
    by (split; [reflexivity|left; reflexivity]).
  split.
  - destruct (sendRequest_parses_unless_binary_or_credit (H := host)
                "action-szamla_agent_kifiz" "<xmlszamlakifiz/>" false []
                (ok_response [] "<xmlszamlavalasz/>") eq_refl Hpass) as (Hraw & _).
    apply Hraw. right. reflexivity.
  - destruct (sendRequest_parses_unless_binary_or_credit (H := host)
                "action-xmlagentxmlfile" "<xmlszamla/>" false []
                (ok_response [] "<xmlszamlavalasz/>") eq_refl Hpass) as (_ & Hparsed & _).
    destruct (Hparsed eq_refl ltac:(discriminate)) as (out & -> & Herror & _).
    f_equal. exact (Herror error_document _ _ _ eq_refl eq_refl eq_refl).
Defined.

(** ** Decoding the responses *)

Section DecodeFacts.
Context `{Host}.

Lemma is_string_lit_true (v : jsval) (lit : string) :
  is_string_lit v lit = true <-> v = JStr lit.
Proof.
  destruct v; simpl; try (split; [discriminate|discriminate]).
  rewrite String.eqb_eq. split; [intros ->; reflexivity|intros [= ->]; reflexivity].
Qed.

Lemma Get_present (v : jsval) (k : string) :
  is_nullish v = false -> Get v k = Return (elem v k).
Proof. intros Hv. unfold Get. rewrite Hv. reflexivity. Qed.

Lemma Get_own (v x : jsval) (k : string) :
  getOwn v k = Some x -> Get v k = Return x.
Proof.
  intros Hx. rewrite Get_present by (destruct v; simpl in *; congruence).
  unfold elem. rewrite Hx. reflexivity.
Qed.

(** A text response that passes every check of [_sendRequest]. *)
Lemma sendRequest_parsed_ok (fileFieldName xml : string) (log : list event)
    (r : HttpResponse) (doc : jsval) :
  answers log r ->
  passes_header_checks r ->
  String.eqb fileFieldName "action-szamla_agent_kifiz" = false ->
  xml2js_parseString (resp_data r) = Return doc ->
  no_error_node doc ->
  _sendRequest fileFieldName xml false log
  = (Return r, log ++ [Posted fileFieldName xml false; Parsed (resp_data r)]).
Proof.
  intros Hans Hpass Hf Hparse [Hnull Hnode].
  rewrite (sendRequest_checked _ _ _ _ r (Hans _ _ _) Hpass). cbv zeta.
  rewrite Hf, Hparse, Hnull, Hnode. simpl. rewrite <- app_assoc. reflexivity.
Qed.

Lemma sendRequest_binary_ok (fileFieldName xml : string) (log : list event)
    (r : HttpResponse) :
  answers log r ->
  passes_header_checks r ->
  _sendRequest fileFieldName xml true log
  = (Return r, log ++ [Posted fileFieldName xml true]).
Proof.
  intros Hans Hpass.
  rewrite (sendRequest_checked _ _ _ _ r (Hans _ _ _) Hpass). reflexivity.
Qed.

Lemma queryTaxPayer_xml_returns (c : Client) (taxPayerId : jsval) :
  constructed c ->
  valid_taxPayerId taxPayerId = true ->
  exists xml, queryTaxPayer_xml c taxPayerId = Return xml.
Proof.
  intros Hc Hid. unfold queryTaxPayer_xml.
  rewrite wrap_parent. cbv zeta. rewrite indent_of_explicit by lia.
  rewrite <- (app_nil_r (_getAuthFields c)), (render_auth_first c _ 1 Hc) by lia.
  destruct taxPayerId; try discriminate.
  rewrite wrap_scalar by reflexivity. simpl. eauto.
Qed.

Lemma bind_parseString {B} (xml : string) (k : jsval -> M B) (log : list event) :
  (parseString xml ≫= k) log =
  match xml2js_parseString xml with
  | Return doc => k doc (log ++ [Parsed xml])
  | Throw e => (Throw e, log ++ [Parsed xml])
  end.
Proof. unfold mbind, M_bind, parseString. destruct (xml2js_parseString xml); reflexivity. Qed.

Lemma bind_run {A B} (m : M A) (k : A -> M B) (log log1 : list event) (a : A) :
  m log = (Return a, log1) -> (m ≫= k) log = k a log1.
Proof. intros Hm. unfold mbind, M_bind. rewrite Hm. reflexivity. Qed.

(** C6: for a response whose document, namespaces stripped, has the
    [QueryTaxpayerResponse] root, the result is exactly
    [{taxpayerValidity: false}] whenever the first [taxpayerValidity] under
    the root is anything but the string [true] (absent included); and it is
    never that object when the leaf is the string [true]. *)
Theorem queryTaxPayer_valid_only_for_true
    (c : Client) (taxPayerId : jsval) (log : list event) (r : HttpResponse)
    (parsedBody cleanParsedBodyData : jsval) :
  constructed c ->
  valid_taxPayerId taxPayerId = true ->
  answers log r ->
  passes_header_checks r ->
  xml2js_parseString (resp_data r) = Return parsedBody ->
  no_error_node parsedBody ->
  getOwn (removeNamespaces parsedBody) "QueryTaxpayerResponse" = Some cleanParsedBodyData ->
  is_nullish cleanParsedBodyData = false ->
  let leaf := OptGet (elem cleanParsedBodyData "taxpayerValidity") "0" in
  (leaf <> JStr "true" ->
     exists xml,
       queryTaxPayer c taxPayerId log
       = (Return (JObj [("taxpayerValidity", JBool false)]),
          log ++ [Posted "action-szamla_agent_taxpayer" xml false;
                  Parsed (resp_data r); Parsed (resp_data r)]))
  /\ (leaf = JStr "true" ->
      (queryTaxPayer c taxPayerId log).1 <> Return (JObj [("taxpayerValidity", JBool false)])).
Proof.
  intros Hc Hid Hans Hpass Hparse Hnode Hroot Hdata leaf.
  destruct (queryTaxPayer_xml_returns c taxPayerId Hc Hid) as (xml & Hxml).
  split; [intros Hleaf; exists xml|intros Hleaf].
  all: unfold queryTaxPayer.
  all: rewrite bind_lift, Hid; simpl assert; cbv iota beta.
  all: rewrite bind_lift, Hxml.
  all: rewrite (bind_run _ _ _ _ _
         (sendRequest_parsed_ok "action-szamla_agent_taxpayer" xml log r parsedBody
            Hans Hpass eq_refl Hparse Hnode)).
  all: rewrite bind_parseString, Hparse, bind_lift.
  all: rewrite (Get_own _ _ _ Hroot), bind_lift, (Get_present _ _ Hdata).
  all: rewrite <- app_assoc; simpl app; fold leaf.
  - destruct (is_string_lit leaf "true") eqn:Hlit; [|reflexivity].
    apply is_string_lit_true in Hlit. contradiction.
  - rewrite Hleaf. simpl negb. cbv iota.
    unfold mbind, M_bind, lift.
    destruct (_extractAddress _); simpl; discriminate.
Qed.

End DecodeFacts.

Lemma queryTaxPayer_valid_only_for_true_witness :
  let host := scripted (Return (ok_response [] "<QueryTaxpayerResponse/>"))
                (fun _ => Return invalid_taxpayer_document) in
  exists xml,
    queryTaxPayer demo_client (JNum 12345678) []
    = (Return (JObj [("taxpayerValidity", JBool false)]),
       [Posted "action-szamla_agent_taxpayer" xml false;
        Parsed "<QueryTaxpayerResponse/>"; Parsed "<QueryTaxpayerResponse/>"]).
Proof.
  intros host.
  destruct (queryTaxPayer_valid_only_for_true (H := host) demo_client (JNum 12345678) []
              (ok_response [] "<QueryTaxpayerResponse/>") invalid_taxpayer_document
              (JObj [("result", JArr [JObj [("funcCode", JArr [JStr "OK"])]]);
                     ("taxpayerValidity", JArr [JStr "false"])])
              demo_client_constructed eq_refl (fun _ _ _ => eq_refl)
              (conj eq_refl (or_introl eq_refl)) eq_refl (conj eq_refl eq_refl)
              eq_refl eq_refl) as (Hfalse & _).
  apply Hfalse. discriminate.
Defined.

(** C6 as stated fails: a response whose document has no
    [QueryTaxpayerResponse] root has no [taxpayerValidity] leaf either, and
    the operation fails with a TypeError instead of returning
    [{taxpayerValidity: false}]. *)
Lemma queryTaxPayer_fails_without_the_root :
  let host := scripted (Return (ok_response [] "<valasz/>"))
                (fun _ => Return (JObj [("valasz", JStr EmptyString)])) in
  let document := removeNamespaces (JObj [("valasz", JStr EmptyString)]) in
  OptGet (elem (elem document "QueryTaxpayerResponse") "taxpayerValidity") "0" <> JStr "true"
  /\ exists xml,
       queryTaxPayer demo_client (JNum 12345678) []
       = (Throw (TypeError "Cannot read properties of undefined or null"),
          [Posted "action-szamla_agent_taxpayer" xml false;
           Parsed "<valasz/>"; Parsed "<valasz/>"]).
Proof.
  intros host document. split; [discriminate|]. eexists. reflexivity.
Qed.

Section PdfFacts.
Context `{Host}.

Lemma bind_assoc_M {A B C} (m : M A) (k1 : A -> M B) (k2 : B -> M C) (log : list event) :
  ((m ≫= k1) ≫= k2) log = (m ≫= (fun a => k1 a ≫= k2)) log.
Proof.
  unfold mbind, M_bind. destruct (m log) as [[a|e] log1]; reflexivity.
Qed.

Lemma xml2obj_run (xml : string) (objList : list (string * string)) (log : list event)
    (doc : jsval) (hash : gmap string jsval) :
  xml2js_parseString xml = Return doc ->
  project doc objList = Return hash ->
  xml2obj xml objList log = (Return hash, log ++ [Parsed xml]).
Proof.
  intros Hparse Hproject. unfold xml2obj.
  rewrite bind_parseString, Hparse. unfold lift. rewrite Hproject. reflexivity.
Qed.

(** C7: with the download configured, version 1 gives the whole response
    body as the pdf, and the body is not parsed; version 2 gives the base64
    decoding of the text that the projection of [xmlszamlavalasz.pdf] finds,
    and fails with a TypeError when the projection finds nothing; without
    the download configured no result has a pdf, and the version 1 exchange
    returns one such result. *)
Theorem issueInvoice_pdf_by_response_version
    (c : Client) (invoice : Invoice) (log : list event) (r : HttpResponse) (xml : string) :
  issueInvoice_xml c invoice = Return xml ->
  answers log r ->
  passes_header_checks r ->
  let configured := ToBoolean (prop (_options c) "requestInvoiceDownload") in
  let responseVersion := prop (_options c) "responseVersion" in
  (configured = true -> responseVersion = JNum 1 ->
     issueInvoice c invoice log
     = (Return (summary r (Some (resp_data r))),
        log ++ [Posted "action-xmlagentxmlfile" xml true]))
  /\ (configured = true -> responseVersion = JNum 2 ->
      forall doc hash,
        xml2js_parseString (resp_data r) = Return doc ->
        no_error_node doc ->
        project doc [("xmlszamlavalasz.pdf", "pdf")] = Return hash ->
        (forall text, hash !! "pdf" = Some (JStr text) ->
           issueInvoice c invoice log
           = (Return (summary r (Some (base64_decode text))),
              log ++ [Posted "action-xmlagentxmlfile" xml false;
                      Parsed (resp_data r); Parsed (resp_data r)]))
        /\ (hash !! "pdf" = None ->
            exists message,
              issueInvoice c invoice log
              = (Throw (TypeError message),
                 log ++ [Posted "action-xmlagentxmlfile" xml false;
                         Parsed (resp_data r); Parsed (resp_data r)])))
  /\ (configured = false ->
      (forall result log', issueInvoice c invoice log = (Return result, log') ->
         pdf result = None)
      /\ (responseVersion = JNum 1 ->
          issueInvoice c invoice log
          = (Return (summary r None), log ++ [Posted "action-xmlagentxmlfile" xml true]))).
Proof.
  intros Hxml Hans Hpass configured responseVersion.
  subst configured responseVersion. unfold issueInvoice.
  rewrite bind_lift, Hxml.
  split; [|split].
  - intros Hc Hv. rewrite Hv. simpl is_number_lit.
    rewrite (bind_run _ _ _ _ _ (sendRequest_binary_ok _ xml log r Hans Hpass)).
    rewrite Hc. reflexivity.
  - intros Hc Hv doc hash Hparse Hnode Hproject. rewrite Hv. simpl is_number_lit.
    rewrite (bind_run _ _ _ _ _
               (sendRequest_parsed_ok "action-xmlagentxmlfile" xml log r doc
                  Hans Hpass eq_refl Hparse Hnode)).
    rewrite Hc. cbv iota.
    rewrite bind_assoc_M, (bind_run _ _ _ _ _ (xml2obj_run _ _ _ doc hash Hparse Hproject)).
    rewrite bind_assoc_M, bind_lift, <- app_assoc. simpl app. unfold prop.
    split.
    + intros text Htext. rewrite Htext. reflexivity.
    + intros Hnone. rewrite Hnone. simpl. eauto.
  - intros Hc. rewrite Hc. split.
    + intros result log'. unfold mbind, M_bind.
      destruct (_sendRequest _ xml _ log) as [[r'|e] log1]; [|discriminate].
      intros [= <- <-]. reflexivity.
    + intros Hv. rewrite Hv. simpl is_number_lit.
      rewrite (bind_run _ _ _ _ _ (sendRequest_binary_ok _ xml log r Hans Hpass)).
      reflexivity.
Qed.

End PdfFacts.

Lemma issueInvoice_pdf_by_response_version_witness :
  let host := scripted (Return pdf_response) (fun _ => Return pdf_document) in
  exists xml,
    issueInvoice download_client demo_invoice []
    = (Return (summary pdf_response (Some "%PDF-")),
       [Posted "action-xmlagentxmlfile" xml false;
        Parsed "<xmlszamlavalasz/>"; Parsed "<xmlszamlavalasz/>"]).
Proof.
  intros host. eexists.
  destruct (issueInvoice_pdf_by_response_version (H := host) download_client demo_invoice []
              pdf_response _ eq_refl (fun _ _ _ => eq_refl)
              (conj eq_refl (or_introl eq_refl))) as (_ & Hv2 & _).
  destruct (Hv2 eq_refl eq_refl pdf_document _ eq_refl (conj eq_refl eq_refl) eq_refl)
    as (Hfound & _).
  exact (Hfound "JVBERi0=" eq_refl).
Defined.

(** * More of the code *)

(** ** Escaping and padding (XMLUtils.js) *)

Lemma replaceXMLChar_cases (a : ascii) :
  (a = "<"%char /\ replaceXMLChar a = "&lt;")
  \/ (a = ">"%char /\ replaceXMLChar a = "&gt;")
  \/ (a = "&"%char /\ replaceXMLChar a = "&amp;")
  \/ (a <> "<"%char /\ a <> ">"%char /\ a <> "&"%char
      /\ replaceXMLChar a = String a EmptyString).
Proof.
  unfold replaceXMLChar.
  destruct (Ascii.eqb_spec a "<"); [auto|].
  destruct (Ascii.eqb_spec a ">"); [auto|].
  destruct (Ascii.eqb_spec a "&"); [auto 6|].
  auto 10.
Qed.

(** Escaping loses nothing: two strings with the same escaped text are the
    same string. *)
Theorem escapeXMLString_injective (s t : string) :
  escapeXMLString s = escapeXMLString t -> s = t.
Proof.
  revert t. induction s as [|a s IH]; intros [|b t]; simpl.
  - reflexivity.
  - destruct (replaceXMLChar_cases b) as [[_ ->]|[[_ ->]|[[_ ->]|(_ & _ & _ & ->)]]];
      discriminate.
  - destruct (replaceXMLChar_cases a) as [[_ ->]|[[_ ->]|[[_ ->]|(_ & _ & _ & ->)]]];
      discriminate.
  - destruct (replaceXMLChar_cases a) as [[-> ->]|[[-> ->]|[[-> ->]|(Ha1 & Ha2 & Ha3 & ->)]]];
    destruct (replaceXMLChar_cases b) as [[-> ->]|[[-> ->]|[[-> ->]|(Hb1 & Hb2 & Hb3 & ->)]]];
      rewrite ?append_cons, ?append_empty_l; intros Heq;
      try discriminate Heq; try (injection Heq as Heq; f_equal; auto; fail);
      injection Heq; intros; subst; try contradiction; f_equal; auto.
Qed.

Lemma escapeXMLString_injective_witness :
  escapeXMLString "a<b" = "a&lt;b" /\ "a<b" = "a<b".
Proof.
  split; [reflexivity|].
  exact (escapeXMLString_injective "a<b" "a<b" eq_refl).
Defined.

Lemma escapeXMLString_append (s t : string) :
  escapeXMLString (s +:+ t) = escapeXMLString s +:+ escapeXMLString t.
Proof.
  induction s as [|a s IH]; [reflexivity|].
  rewrite append_cons. simpl. rewrite IH, append_assoc. reflexivity.
Qed.

(** The escaped text holds neither [<] nor [>], an ampersand only where the
    input had one of the three characters, and escaping goes through
    concatenation; a string without the three characters is left as it is. *)
Theorem escapeXMLString_output (s t : string) :
  has_char "<" (escapeXMLString s) = false
  /\ has_char ">" (escapeXMLString s) = false
  /\ has_char "&" (escapeXMLString s)
     = has_char "<" s || has_char ">" s || has_char "&" s
  /\ escapeXMLString (s +:+ t) = escapeXMLString s +:+ escapeXMLString t
  /\ (has_char "<" s || has_char ">" s || has_char "&" s = false ->
      escapeXMLString s = s).
Proof.
  split; [|split; [|split; [|split]]].
  - induction s as [|a s IH]; [reflexivity|]. simpl. rewrite has_char_append, IH.
    destruct (replaceXMLChar_cases a) as [[-> ->]|[[-> ->]|[[-> ->]|(H1 & _ & _ & ->)]]];
      try reflexivity.
    simpl. apply Ascii.eqb_neq in H1. rewrite H1. reflexivity.
  - induction s as [|a s IH]; [reflexivity|]. simpl. rewrite has_char_append, IH.
    destruct (replaceXMLChar_cases a) as [[-> ->]|[[-> ->]|[[-> ->]|(_ & H2 & _ & ->)]]];
      try reflexivity.
    simpl. apply Ascii.eqb_neq in H2. rewrite H2. reflexivity.
  - induction s as [|a s IH]; [reflexivity|]. simpl. rewrite has_char_append, IH.
    destruct (replaceXMLChar_cases a) as [[-> ->]|[[-> ->]|[[-> ->]|(H1 & H2 & H3 & ->)]]];
      try reflexivity.
    + simpl. rewrite !orb_true_r. reflexivity.
    + simpl. rewrite !orb_true_r. reflexivity.
    + simpl. apply Ascii.eqb_neq in H1, H2, H3. rewrite H1, H2, H3. reflexivity.
  - apply escapeXMLString_append.
  - induction s as [|a s IH]; [reflexivity|]. simpl.
    destruct (replaceXMLChar_cases a) as [[-> ->]|[[-> ->]|[[-> ->]|(H1 & H2 & H3 & ->)]]];
      try discriminate.
    + simpl. rewrite orb_true_r. discriminate.
    + simpl. rewrite !orb_true_r. discriminate.
    + apply Ascii.eqb_neq in H1, H2, H3. rewrite H1, H2, H3. simpl.
      intros Hs. rewrite append_cons, append_empty_l, IH by exact Hs. reflexivity.
Qed.

Lemma escapeXMLString_output_witness :
  escapeXMLString "Kiss Bt." = "Kiss Bt.".
Proof.
  exact (proj2 (proj2 (proj2 (proj2 (escapeXMLString_output "Kiss Bt." EmptyString)))) eq_refl).
Defined.

Lemma iter_append_from (n : nat) (str s0 : string) :
  Nat.iter n (fun o => o +:+ str) s0
  = s0 +:+ Nat.iter n (fun o => o +:+ str) EmptyString.
Proof.
  induction n as [|n IH]; simpl; [rewrite append_empty_r; reflexivity|].
  rewrite IH, append_assoc. reflexivity.
Qed.




(** ** Decimal text of numbers *)

Lemma pretty_N_go_length_ge (x : N) (s : string) :
  (String.length s <= String.length (pretty_N_go x s))%nat.
Proof.
  revert s. induction (N.lt_wf_0 x) as [x _ IH]; intros s.
  assert (x = 0 \/ 0 < x)%N as [->|Hx] by lia; [rewrite pretty_N_go_0; lia|].
  rewrite pretty_N_go_step by exact Hx.
  etrans; [|apply IH, N.div_lt; lia]. simpl. lia.
Qed.

(** A positive number prints with [k + 1] digits exactly when it lies
    between [10 ^ k] and [10 ^ (k + 1)]. *)
Lemma pretty_N_go_digits (k : nat) (x : N) (s : string) :
  (0 < x)%N ->
  String.length (pretty_N_go x s) = (S k + String.length s)%nat
  <-> (10 ^ N.of_nat k <= x < 10 ^ N.of_nat (S k))%N.
Proof.
  revert x s. induction k as [|k IH]; intros x s Hx.
  - rewrite pretty_N_go_step by exact Hx. change (10 ^ N.of_nat 0)%N with 1%N.
    change (10 ^ N.of_nat 1)%N with 10%N.
    assert (x < 10 \/ 10 <= x)%N as [Hs|Hl] by lia.
    + rewrite N.div_small by exact Hs. rewrite pretty_N_go_0. simpl. lia.
    + assert (0 < x `div` 10)%N by (apply N.div_str_pos; lia).
      rewrite pretty_N_go_step by assumption.
      pose proof (pretty_N_go_length_ge ((x `div` 10) `div` 10)
        (String (pretty_N_char ((x `div` 10) `mod` 10)) (String (pretty_N_char (x `mod` 10)) s))) as Hge.
      simpl in Hge. lia.
  - rewrite pretty_N_go_step by exact Hx.
    assert (Hpow : forall j, (10 ^ N.of_nat (S j) = 10 * 10 ^ N.of_nat j)%N).
    { intros j. rewrite Nat2N.inj_succ, N.pow_succ_r'. reflexivity. }
    assert (x < 10 \/ 10 <= x)%N as [Hs|Hl] by lia.
    + rewrite N.div_small by exact Hs. rewrite pretty_N_go_0. simpl.
      assert (1 <= 10 ^ N.of_nat k)%N by (apply N.lt_pred_le, N.neq_0_lt_0, N.pow_nonzero; lia).
      rewrite (Hpow k). split; [lia|]. intros [Hlow _]. lia.
    + assert (Hq : (0 < x `div` 10)%N) by (apply N.div_str_pos; lia).
      pose proof (IH (x `div` 10)%N (String (pretty_N_char (x `mod` 10)) s) Hq) as Hiff.
      simpl String.length in Hiff.
      rewrite (Hpow (S k)), (Hpow k). rewrite (Hpow k) in Hiff.
      pose proof (N.div_mod x 10 ltac:(lia)) as Hdm.
      pose proof (N.mod_lt x 10 ltac:(lia)) as Hm.
      clear IH Hpow. remember (10 ^ N.of_nat k)%N as P eqn:HP. clear HP.
      remember (x `div` 10)%N as q eqn:Hq'. remember (x `mod` 10)%N as r eqn:Hr'.
      clear Hq' Hr'.
      split.
      * intros Hlen. assert (Hr : (P <= q < 10 * P)%N) by (apply Hiff; lia). lia.
      * intros Hr. assert (Hlen : String.length (pretty_N_go q (String (pretty_N_char r) s))
            = (S k + S (String.length s))%nat) by (apply Hiff; lia). lia.
Qed.

Lemma all_digits_pretty_N_go (x : N) (s : string) :
  all_chars is_digit (pretty_N_go x s) = all_chars is_digit s.
Proof.
  revert s. induction (N.lt_wf_0 x) as [x _ IH]; intros s.
  assert (x = 0 \/ 0 < x)%N as [->|Hx] by lia; [rewrite pretty_N_go_0; reflexivity|].
  rewrite pretty_N_go_step by exact Hx. rewrite IH by (apply N.div_lt; lia).
  simpl. replace (is_digit (pretty_N_char (x `mod` 10))) with true; [reflexivity|].
  unfold pretty_N_char. repeat case_match; reflexivity.
Qed.

Lemma pretty_pos_digits (k : nat) (p : positive) :
  String.length (pretty (Z.pos p)) = S k
  <-> 10 ^ Z.of_nat k <= Z.pos p < 10 ^ Z.of_nat (S k).
Proof.
  change (pretty (Z.pos p)) with (pretty (N.pos p)).
  unfold pretty, pretty_N. destruct (decide (N.pos p = 0%N)) as [|_]; [discriminate|].
  pose proof (pretty_N_go_digits k (N.pos p) EmptyString ltac:(lia)) as Hd.
  simpl String.length in Hd. rewrite Nat.add_0_r in Hd. rewrite Hd.
  rewrite <- !nat_N_Z, <- !(N2Z.inj_pow 10), <- positive_N_Z. lia.
Qed.

Lemma all_digits_pretty_pos (p : positive) :
  all_chars is_digit (pretty (Z.pos p)) = true.
Proof.
  change (pretty (Z.pos p)) with (pretty (N.pos p)).
  unfold pretty, pretty_N. destruct (decide (N.pos p = 0%N)) as [|_]; [discriminate|].
  apply all_digits_pretty_N_go.
Qed.

Section TaxPayerId.
Context `{Host}.

(** The tax payer id that [queryTaxPayer] accepts is a number from 10000000
    to 99999999: a number below ten million has fewer than eight digits as
    text (no leading zero is printed), a negative one starts with a sign.
    Anything else is refused by the assertion, with nothing sent. *)
Theorem queryTaxPayer_accepts_eight_digit_numbers
    (c : Client) (taxPayerId : jsval) (log : list event) :
  (valid_taxPayerId taxPayerId = true
   <-> exists n, taxPayerId = JNum n /\ 10000000 <= n <= 99999999)
  /\ (valid_taxPayerId taxPayerId = false ->
      queryTaxPayer c taxPayerId log
      = (Throw (AssertionError "taxPayerId must be an 8-digit number"), log)).
Proof.
  split.
  - destruct taxPayerId as [| | |n| | | | |]; simpl;
      try (split; [discriminate|intros (n' & [=] & _)]).
    destruct n as [|p|p].
    + split; [discriminate|]. intros (n' & [= <-] & Hn). lia.
    + rewrite all_digits_pretty_pos, andb_true_r, Nat.eqb_eq.
      rewrite (pretty_pos_digits 7 p).
      change (10 ^ Z.of_nat 7) with 10000000. change (10 ^ Z.of_nat 8) with 100000000.
      split.
      * intros Hp. exists (Z.pos p). split; [reflexivity|lia].
      * intros (n' & [= <-] & Hn). lia.
    + replace (all_chars is_digit (pretty (Z.neg p))) with false by reflexivity.
      rewrite andb_false_r. split; [discriminate|]. intros (n' & [= <-] & Hn). lia.
  - intros Hno. unfold queryTaxPayer. rewrite bind_lift, Hno. reflexivity.
Qed.

End TaxPayerId.

Lemma queryTaxPayer_accepts_eight_digit_numbers_witness :
  let host := offline in
  valid_taxPayerId (JNum 12345678) = true
  /\ queryTaxPayer demo_client (JNum 1234567) []
     = (Throw (AssertionError "taxPayerId must be an 8-digit number"), []).
Proof.
  intros host.
  destruct (queryTaxPayer_accepts_eight_digit_numbers (H := host) demo_client
              (JNum 12345678) []) as (Hiff & _).
  destruct (queryTaxPayer_accepts_eight_digit_numbers (H := host) demo_client
              (JNum 1234567) []) as (_ & Hrefuse).
  split.
  - apply Hiff. exists 12345678. split; [reflexivity|lia].
  - apply Hrefuse. reflexivity.
Defined.

(** ** More on the XML builder *)

Section BuilderMore.
Context `{Host}.

Lemma concat_map_app {A} (f : A -> outcome string) (l1 l2 : list A) :
  concat_map f (l1 ++ l2) =
  s1 ← concat_map f l1; s2 ← concat_map f l2; Return (s1 +:+ s2).
Proof.
  induction l1 as [|x l1 IH]; simpl.
  - destruct (concat_map f l2); reflexivity.
  - destruct (f x) as [s|]; [|reflexivity]. simpl. rewrite IH.
    destruct (concat_map f l1) as [s1|]; [|reflexivity]. simpl.
    destruct (concat_map f l2) as [s2|]; [|reflexivity]. simpl.
    rewrite append_assoc. reflexivity.
Qed.


(** A value that is null or undefined gives no output, whatever the name and
    the indent level; in a list, its pair adds nothing to the output of the
    other pairs. *)
Theorem wrapWithElement_omits_absent_values
    (name data : jsval) (indentLevel : option number) :
  as_array name = None ->
  is_nullish data = true ->
  wrapWithElement name data indentLevel = Return EmptyString
  /\ forall (field : string) (rest : list jsval) (d : jsval) (level : option number),
       wrapWithElement (JArr (pair_ field data :: rest)) d level
       = wrapWithElement (JArr rest) d level.
Proof.
  intros Hname Hdata.
  assert (Hleaf : forall nm il, as_array nm = None -> wrapWithElement nm data il = Return EmptyString).
  { intros nm il Hnm. rewrite wrapWithElement_eq.
    destruct nm; try discriminate; destruct data; try discriminate; reflexivity. }
  split; [apply Hleaf, Hname|].
  intros field rest d level. rewrite !wrapWithElement_eq. cbv zeta.
  rewrite render_children_cons, Hleaf by reflexivity. simpl.
  destruct (render_children rest _); reflexivity.
Qed.

(** The pairs of a list are rendered in their order: the output of a list
    that is two lists joined is the two outputs joined, and it fails when
    one of them does. *)
Theorem wrapWithElement_list_concatenates
    (items1 items2 : list jsval) (data : jsval) (indentLevel : option number) :
  wrapWithElement (JArr (items1 ++ items2)) data indentLevel =
  s1 ← wrapWithElement (JArr items1) data indentLevel;
  s2 ← wrapWithElement (JArr items2) data indentLevel;
  Return (s1 +:+ s2).
Proof.
  rewrite !wrapWithElement_eq. apply concat_map_app.
Qed.

(** An indent level of 0 passed by the caller counts as none: a scalar that
    converts to a number other than 0 is still rendered at the level of its
    own value, which is the least whole number that is not below it (and no
    indentation when that is not positive). This is said of an element that
    is not too long for the engine. *)
Theorem wrapWithElement_zero_indent_is_no_indent
    (name : string) (data : jsval) (x : number) :
  is_scalar data = true ->
  ToNumber data = Some x ->
  number_truthy x = true ->
  fits (element (ceiling x) name (scalar_text data)) ->
  wrapWithElement (JStr name) data (Some (Whole 0))
  = Return (element (ceiling x) name (scalar_text data))
  /\ wrapWithElement (JStr name) data (Some (Whole 0))
     = wrapWithElement (JStr name) data None.
Proof.
  intros Hs Hx Hne _. rewrite !(wrap_scalar _ _ _ Hs).
  rewrite indent_of_zero, (indent_of_omitted _ _ Hx). auto.
Qed.



(** A list that holds null or undefined where a pair should stand makes the
    builder fail. *)
Theorem wrapWithElement_fails_on_absent_pair
    (items : list jsval) (item data : jsval) (indentLevel : option number) :
  In item items ->
  is_nullish item = true ->
  exists e, wrapWithElement (JArr items) data indentLevel = Throw e.
Proof.
  intros Hin Hnull. rewrite wrapWithElement_eq. cbv zeta.
  generalize (indent_of indentLevel data). intros lvl. unfold render_children.
  induction items as [|x items IH]; [destruct Hin|].
  simpl. destruct Hin as [->|Hin].
  - rewrite Hnull. simpl. eauto.
  - destruct (IH Hin) as (e & ->).
    destruct (if is_nullish x then _ else _); simpl; eauto.
Qed.

End BuilderMore.

Lemma wrapWithElement_omits_absent_values_witness :
  let host := offline in
  wrapWithElement (JStr "email") JNull (Some (Whole 3)) = Return EmptyString
  /\ forall (field : string) (rest : list jsval) (d : jsval) (level : option number),
       wrapWithElement (JArr (pair_ field JNull :: rest)) d level
       = wrapWithElement (JArr rest) d level.
Proof.
  intros host.
  apply (wrapWithElement_omits_absent_values (H := host) (JStr "email") JNull
           (Some (Whole 3)));
    reflexivity.
Defined.

Lemma wrapWithElement_zero_indent_is_no_indent_witness :
  let host := offline in
  wrapWithElement (JStr "irsz") (JNum 12) (Some (Whole 0))
  = Return (element 12 "irsz" (scalar_text (JNum 12)))
  /\ wrapWithElement (JStr "irsz") (JNum 12) (Some (Whole 0))
     = wrapWithElement (JStr "irsz") (JNum 12) None.
Proof.
  intros host.
  apply (wrapWithElement_zero_indent_is_no_indent (H := host) "irsz" (JNum 12) (Whole 12));
    [reflexivity|reflexivity|reflexivity|vm_compute; discriminate].
Defined.


Lemma wrapWithElement_fails_on_absent_pair_witness :
  let host := offline in
  exists e, wrapWithElement (JArr [pair_ "nev" (JStr "Kiss"); JNull]) JUndefined None = Throw e.
Proof.
  intros host.
  apply (wrapWithElement_fails_on_absent_pair (H := host)
           [pair_ "nev" (JStr "Kiss"); JNull] JNull JUndefined None);
    [right; left; reflexivity|reflexivity].
Defined.

(** ** Dates *)


Section Dates.
Context `{Host}.


End Dates.


(** ** The exchange of an operation (Client.js) *)

Section Exchange.
Context `{Host}.

Lemma sendRequest_post_fails (fileFieldName xml : string) (isBinaryDownload : bool)
    (log : list event) (e : exn) :
  axios_post log fileFieldName xml isBinaryDownload = Throw e ->
  _sendRequest fileFieldName xml isBinaryDownload log
  = (Throw e, log ++ [Posted fileFieldName xml isBinaryDownload]).
Proof.
  intros Hpost. unfold _sendRequest, axios_instance_post, mbind, M_bind at 1.
  rewrite Hpost. reflexivity.
Qed.

Lemma sendRequest_rejected_status (fileFieldName xml : string) (isBinaryDownload : bool)
    (log : list event) (r : HttpResponse) :
  axios_post log fileFieldName xml isBinaryDownload = Return r ->
  status r < 200 \/ 300 <= status r ->
  _sendRequest fileFieldName xml isBinaryDownload log
  = (Throw (ForeignError ("Request failed with status code " +:+ pretty (status r))),
     log ++ [Posted fileFieldName xml isBinaryDownload]).
Proof.
  intros Hpost Hstatus. unfold _sendRequest, axios_instance_post, mbind, M_bind at 1.
  rewrite Hpost. cbv beta iota.
  replace ((200 <=? status r) && (status r <? 300)) with false; [reflexivity|].
  symmetry. apply andb_false_iff. rewrite Z.leb_gt, Z.ltb_ge. exact Hstatus.
Qed.

Lemma sendRequest_other_status (fileFieldName xml : string) (isBinaryDownload : bool)
    (log : list event) (r : HttpResponse) :
  axios_post log fileFieldName xml isBinaryDownload = Return r ->
  200 < status r < 300 ->
  _sendRequest fileFieldName xml isBinaryDownload log
  = (Throw (Error (pretty (status r) +:+ " " +:+ statusText r) JUndefined),
     log ++ [Posted fileFieldName xml isBinaryDownload]).
Proof.
  intros Hpost Hstatus. unfold _sendRequest, axios_instance_post, mbind, M_bind at 1.
  rewrite Hpost. cbv beta iota.
  replace ((200 <=? status r) && (status r <? 300)) with true
    by (symmetry; apply andb_true_iff; rewrite Z.leb_le, Z.ltb_lt; lia).
  cbv beta iota.
  replace (status r =? 200) with false by (symmetry; apply Z.eqb_neq; lia).
  reflexivity.
Qed.

Lemma run_throws_with_request (c : Client) (op : call) (log : list event)
    (xml : string) (e : exn) :
  validate op = Return tt ->
  document_of c op log = Return xml ->
  _sendRequest (field_of op) xml (binary_of c op) log
  = (Throw e, log ++ [Posted (field_of op) xml (binary_of c op)]) ->
  run c op log = (Throw e, log ++ [Posted (field_of op) xml (binary_of c op)]).
Proof.
  intros Hval Hdoc Hsend.
  destruct (run_sends c op log) as [(e' & _ & [Hv|[_ Hd]])|(xml' & k & _ & Hd & _ & _ & ->)];
    [congruence..|].
  assert (xml' = xml) as -> by congruence.
  unfold mbind, M_bind. rewrite Hsend. reflexivity.
Qed.

(** When the post itself fails, the operation fails with that error. A
    response whose status is not 2xx never comes back from the transport,
    which rejects it: the operation fails with the transport's error. A
    response with a 2xx status other than 200 makes the operation fail with
    the error whose message is the status and the status text, and which has
    no code, whatever the headers and the body are. In every case the post
    is the only exchange: nothing is parsed. *)
Theorem run_fails_without_ok_response
    (c : Client) (op : call) (log : list event) (xml : string) :
  validate op = Return tt ->
  document_of c op log = Return xml ->
  (forall e,
     axios_post log (field_of op) xml (binary_of c op) = Throw e ->
     run c op log = (Throw e, log ++ [Posted (field_of op) xml (binary_of c op)]))
  /\ (forall r,
        axios_post log (field_of op) xml (binary_of c op) = Return r ->
        status r < 200 \/ 300 <= status r ->
        run c op log
        = (Throw (ForeignError ("Request failed with status code " +:+ pretty (status r))),
           log ++ [Posted (field_of op) xml (binary_of c op)]))
  /\ (forall r,
        axios_post log (field_of op) xml (binary_of c op) = Return r ->
        200 < status r < 300 ->
        run c op log
        = (Throw (Error (pretty (status r) +:+ " " +:+ statusText r) JUndefined),
           log ++ [Posted (field_of op) xml (binary_of c op)])).
Proof.
  intros Hval Hdoc. split; [|split].
  - intros e Hpost. apply run_throws_with_request; auto using sendRequest_post_fails.
  - intros r Hpost Hstatus.
    apply run_throws_with_request; auto using sendRequest_rejected_status.
  - intros r Hpost Hstatus.
    apply run_throws_with_request; auto using sendRequest_other_status.
Qed.

(** A non-empty error code in the headers of a response of status 200 makes
    the operation fail also when the message cannot be read: with a
    TypeError when the message header is missing, and with the error of the
    decoder when the message does not decode. The error code is then lost. *)
Theorem run_fails_on_unreadable_error_message
    (c : Client) (op : call) (log : list event) (r : HttpResponse)
    (code xml : string) :
  answers log r ->
  status r = 200 ->
  headers r !! "szlahu_error_code" = Some code ->
  code <> EmptyString ->
  validate op = Return tt ->
  document_of c op log = Return xml ->
  (headers r !! "szlahu_error" = None ->
   run c op log
   = (Throw (TypeError "Cannot read properties of undefined (reading 'replace')"),
      log ++ [Posted (field_of op) xml (binary_of c op)]))
  /\ (forall szlahu_error e,
        headers r !! "szlahu_error" = Some szlahu_error ->
        decodeURIComponent (replace_char "+" " " szlahu_error) = Throw e ->
        run c op log = (Throw e, log ++ [Posted (field_of op) xml (binary_of c op)])).
Proof.
  intros Hans Hstatus Hcode Hne Hval Hdoc.
  destruct code as [|a code]; [contradiction|].
  split; [intros Hmsg|intros msg e Hmsg Hdecode].
  all: apply run_throws_with_request; auto.
  all: rewrite (sendRequest_eq _ _ _ _ r (Hans _ _ _) Hstatus), Hcode, Hmsg.
  - reflexivity.
  - rewrite Hdecode. reflexivity.
Qed.

(** What an operation adds to the log of exchanges. Nothing, when its
    arguments are refused or its document cannot be built. Otherwise one
    post and no more, first, of the document of the operation under its
    form field, followed by calls of the parser only. Nothing that was in
    the log is dropped. *)
Theorem run_posts_once_after_validation (c : Client) (op : call) (log : list event) :
  exists tail,
    (run c op log).2 = log ++ tail
    /\ ((tail = []
         /\ exists e, (run c op log).1 = Throw e
                      /\ (validate op = Throw e
                          \/ validate op = Return tt /\ document_of c op log = Throw e))
        \/ exists xml parses,
             validate op = Return tt
             /\ document_of c op log = Return xml
             /\ tail = Posted (field_of op) xml (binary_of c op) :: parses
             /\ forallb is_Parsed parses = true).
Proof.
  destruct (run_sends c op log) as [(e & Hrun & Hwhy)|(xml & k & Hval & Hdoc & Hk & _ & Hrun)].
  - exists []. rewrite Hrun, app_nil_r. split; [reflexivity|]. left. eauto.
  - rewrite Hrun. unfold mbind, M_bind.
    destruct (sendRequest_log (field_of op) xml (binary_of c op) log) as (tail & Hlog & Htail).
    destruct (_sendRequest (field_of op) xml (binary_of c op) log) as [[r|e] log1];
      simpl in Hlog; subst log1.
    + destruct (k r (log ++ Posted (field_of op) xml (binary_of c op) :: tail))
        as [out log2] eqn:Hk1.
      destruct (Hk r _ _ _ Hk1) as (tail2 & -> & Htail2).
      exists (Posted (field_of op) xml (binary_of c op) :: tail ++ tail2).
      split; [simpl; rewrite <- app_assoc; reflexivity|].
      right. exists xml, (tail ++ tail2). repeat split; auto.
      rewrite forallb_app, Htail, Htail2. reflexivity.
    + exists (Posted (field_of op) xml (binary_of c op) :: tail).
      split; [reflexivity|]. right. exists xml, tail. auto.
Qed.

End Exchange.

Lemma run_fails_without_ok_response_witness :
  (let host := scripted (Return not_found_response)
                 (fun _ => Throw (ForeignError "not XML")) in
   exists xml,
     run demo_client (QueryTaxPayer (JNum 12345678)) []
     = (Throw (ForeignError "Request failed with status code 404"),
        [Posted "action-szamla_agent_taxpayer" xml false]))
  /\ (let host := scripted (Return no_content_response)
                    (fun _ => Throw (ForeignError "not XML")) in
      exists xml,
        run demo_client (QueryTaxPayer (JNum 12345678)) []
        = (Throw (Error "204 No Content" JUndefined),
           [Posted "action-szamla_agent_taxpayer" xml false])).
Proof.
  split; intros host; eexists.
  - refine (proj1 (proj2 (run_fails_without_ok_response (H := host) demo_client
                            (QueryTaxPayer (JNum 12345678)) [] _ eq_refl eq_refl))
              not_found_response eq_refl _).
    right. simpl. lia.
  - refine (proj2 (proj2 (run_fails_without_ok_response (H := host) demo_client
                            (QueryTaxPayer (JNum 12345678)) [] _ eq_refl eq_refl))
              no_content_response eq_refl _).
    simpl. lia.
Defined.

Lemma run_fails_on_unreadable_error_message_witness :
  (let host := scripted (Return code_only_response) (fun _ => Throw (ForeignError "not XML")) in
   exists xml,
     run demo_client (QueryTaxPayer (JNum 12345678)) []
     = (Throw (TypeError "Cannot read properties of undefined (reading 'replace')"),
        [Posted "action-szamla_agent_taxpayer" xml false]))
  /\ (let host := scripted (Return undecodable_response)
                    (fun _ => Throw (ForeignError "not XML")) in
      exists xml,
        run demo_client (QueryTaxPayer (JNum 12345678)) []
        = (Throw (ForeignError "URIError: URI malformed"),
           [Posted "action-szamla_agent_taxpayer" xml false])).
Proof.
  split; intros host; eexists.
  - refine (proj1 (run_fails_on_unreadable_error_message (H := host) demo_client
                     (QueryTaxPayer (JNum 12345678)) [] code_only_response "3" _
                     (fun _ _ _ => eq_refl) eq_refl eq_refl _ eq_refl eq_refl) eq_refl).
    discriminate.
  - refine (proj2 (run_fails_on_unreadable_error_message (H := host) demo_client
                     (QueryTaxPayer (JNum 12345678)) [] undecodable_response "3" _
                     (fun _ _ _ => eq_refl) eq_refl eq_refl _ eq_refl eq_refl)
              "100%+sure" _ eq_refl eq_refl).
    discriminate.
Defined.

(** ** The request documents in full (Client.js) *)

Section Documents.
Context `{Host}.

Lemma wrap_field (name : string) (value : jsval) (lvl : Z) :
  lvl <> 0 ->
  as_array value = None ->
  wrapWithElement (JStr name) value (Some (Whole lvl)) = Return (field_xml lvl name value).
Proof.
  intros Hlvl Hvalue. rewrite wrapWithElement_eq. cbv zeta.
  rewrite indent_of_explicit by exact Hlvl.
  destruct value; try discriminate; reflexivity.
Qed.

Lemma render_optional_field (name : string) (value : jsval) (rest : list jsval) (lvl : Z) :
  lvl + 1 <> 0 ->
  as_array value = None ->
  render_children (pair_ name value :: rest) (Whole lvl) =
  r ← render_children rest (Whole lvl);
  Return (field_xml (lvl + 1) name value +:+ r).
Proof.
  intros Hlvl Hvalue. rewrite render_children_cons. cbn [number_succ].
  rewrite wrap_field by assumption. reflexivity.
Qed.

Lemma render_children_nil (lvl : number) : render_children [] lvl = Return EmptyString.
Proof. reflexivity. Qed.

Lemma indent_of_fields (x y : jsval) (l : list jsval) :
  indent_of None (JArr (x :: y :: l)) = Whole 0.
Proof. unfold indent_of. rewrite ToNumber_list. reflexivity. Qed.

Lemma parent_xml_eq (lvl : Z) (name inner : string) :
  pad lvl None +:+ "<" +:+ name +:+ ">" +:+ nl +:+ inner
  +:+ pad lvl (Some "  ") +:+ "</" +:+ name +:+ ">" +:+ nl
  = parent_xml lvl name inner.
Proof. reflexivity. Qed.

(** The document of [getInvoiceData]: the header, then straight under the
    root and one level deep the authentication elements, the invoice number,
    the order number and the pdf flag, each of the three left out when the
    option is missing; then the closing tag of the root with no line feed. *)
Theorem getInvoiceData_document (c : Client) (options : gmap string jsval) :
  constructed c ->
  as_array (prop options "invoiceId") = None ->
  as_array (prop options "orderNumber") = None ->
  as_array (prop options "pdf") = None ->
  getInvoiceData_xml c options
  = Return (_getXmlHeader "xmlszamlaxml" "agentxml"
            +:+ (auth_xml c 1
                 +:+ field_xml 1 "szamlaszam" (prop options "invoiceId")
                 +:+ field_xml 1 "rendelesSzam" (prop options "orderNumber")
                 +:+ field_xml 1 "pdf" (prop options "pdf"))
            +:+ "</xmlszamlaxml>").
Proof.
  intros Hc Hid Horder Hpdf. unfold getInvoiceData_xml.
  rewrite wrapWithElement_eq. cbv zeta. change (indent_of None JUndefined) with (Whole 0).
  rewrite (render_auth_first c _ 0 Hc) by lia.
  rewrite !render_optional_field, render_children_nil by (assumption || lia).
  simpl mbind. rewrite append_empty_r. reflexivity.
Qed.

(** The document of [reverseInvoice]: the settings and the head stand at the
    margin, their children one level deep. The two flags are written as the
    text of whatever the caller passed, null included; the date of issue is
    the date of the call. *)
Theorem reverseInvoice_document (c : Client) (options : gmap string jsval) (now : Date) :
  constructed c ->
  as_array (prop options "invoiceId") = None ->
  reverseInvoice_xml c options now
  = Return (_getXmlHeader "xmlszamlast" "agentst"
            +:+ parent_xml 0 "beallitasok"
                  (auth_xml c 1
                   +:+ element 1 "eszamla"
                         (escapeXMLString (ToString (prop options "eInvoice")))
                   +:+ element 1 "szamlaLetoltes"
                         (escapeXMLString (ToString (prop options "requestInvoiceDownload"))))
            +:+ parent_xml 0 "fejlec"
                  (field_xml 1 "szamlaszam" (prop options "invoiceId")
                   +:+ element 1 "keltDatum" (format_date now))
            +:+ "</xmlszamlast>").
Proof.
  intros Hc Hid. unfold reverseInvoice_xml.
  rewrite (wrap_parent "beallitasok"), (wrap_parent "fejlec"). cbv zeta.
  assert (Hlvl : forall others,
    indent_of None (JArr (_getAuthFields c ++
      pair_ "eszamla" (JStr (ToString (prop options "eInvoice"))) :: others)) = Whole 0).
  { intros others. unfold _getAuthFields.
    destruct (useToken c); cbn [app]; apply indent_of_fields. }
  rewrite Hlvl, indent_of_fields, (render_auth_first c _ 0 Hc) by lia.
  rewrite !render_field, render_optional_field, render_children_cons by (assumption || lia).
  cbn [number_succ ceiling].
  rewrite wrap_scalar, indent_of_explicit, render_children_nil by (reflexivity || lia).
  simpl mbind. cbn [ceiling]. rewrite !parent_xml_eq, !append_empty_r. reflexivity.
Qed.

(** The document of [queryTaxPayer]: the settings one level deep hold the
    authentication elements and nothing else; the tax number follows them,
    one level deep as well. *)
Theorem queryTaxPayer_document (c : Client) (taxPayerId : jsval) :
  constructed c ->
  valid_taxPayerId taxPayerId = true ->
  queryTaxPayer_xml c taxPayerId
  = Return (_getXmlHeader "xmltaxpayer" "agent"
            +:+ parent_xml 1 "beallitasok" (auth_xml c 2)
            +:+ element 1 "torzsszam" (escapeXMLString (ToString taxPayerId))
            +:+ "</xmltaxpayer>").
Proof.
  intros Hc Hid. unfold queryTaxPayer_xml.
  rewrite wrap_parent. cbv zeta. rewrite indent_of_explicit by lia.
  rewrite <- (app_nil_r (_getAuthFields c)), (render_auth_first c _ 1 Hc) by lia.
  rewrite render_children_nil. destruct taxPayerId; try discriminate.
  rewrite wrap_scalar, indent_of_explicit by (reflexivity || lia).
  simpl mbind. rewrite parent_xml_eq, append_empty_r. reflexivity.
Qed.

(** The document of [issueInvoice]: the settings one level deep hold the
    authentication elements and then the four settings of the client, two
    levels deep; the text that the invoice gives for level 1 follows. When
    the invoice fails to render, so does the document. *)
Theorem issueInvoice_document (c : Client) (invoice : Invoice) :
  constructed c ->
  as_array (prop (_options c) "eInvoice") = None ->
  as_array (prop (_options c) "requestInvoiceDownload") = None ->
  as_array (prop (_options c) "downloadedInvoiceCount") = None ->
  as_array (prop (_options c) "responseVersion") = None ->
  issueInvoice_xml c invoice
  = invoiceXML ← Invoice_generateXML invoice 1;
    Return (_getXmlHeader "xmlszamla" "agent"
            +:+ parent_xml 1 "beallitasok"
                  (auth_xml c 2
                   +:+ field_xml 2 "eszamla" (prop (_options c) "eInvoice")
                   +:+ field_xml 2 "szamlaLetoltes" (prop (_options c) "requestInvoiceDownload")
                   +:+ field_xml 2 "szamlaLetoltesPld"
                         (prop (_options c) "downloadedInvoiceCount")
                   +:+ field_xml 2 "valaszVerzio" (prop (_options c) "responseVersion"))
            +:+ invoiceXML +:+ "</xmlszamla>").
Proof.
  intros Hc He Hd Hn Hv. unfold issueInvoice_xml.
  rewrite wrap_parent. cbv zeta. rewrite indent_of_explicit by lia.
  rewrite (render_auth_first c _ 1 Hc) by lia.
  rewrite !render_optional_field, render_children_nil by (assumption || lia).
  simpl mbind. rewrite parent_xml_eq, append_empty_r. reflexivity.
Qed.

(** The document of [registerCreditEntry]: after the authentication
    elements the settings hold the invoice number, the tax number, which is
    an empty element when the option is missing or falsy, and the additive
    flag; the texts of the entries follow in their order. When an entry
    fails to render, so does the document. *)
Theorem registerCreditEntry_document
    (c : Client) (options : gmap string jsval) (creditEntries : list entry_arg) :
  constructed c ->
  as_array (prop options "invoiceId") = None ->
  as_array (prop options "taxNumber") = None ->
  registerCreditEntry_xml c options creditEntries
  = entries ← concat_map entry_generateXML creditEntries;
    Return (_getXmlHeader "xmlszamlakifiz" "agentkifiz"
            +:+ parent_xml 1 "beallitasok"
                  (auth_xml c 2
                   +:+ field_xml 2 "szamlaszam" (prop options "invoiceId")
                   +:+ element 2 "adoszam"
                         (if ToBoolean (prop options "taxNumber")
                          then scalar_text (prop options "taxNumber") else EmptyString)
                   +:+ element 2 "additiv"
                         (escapeXMLString
                            (ToString (js_or (prop options "additive") (JBool true)))))
            +:+ entries +:+ "</xmlszamlakifiz>").
Proof.
  intros Hc Hid Htax. unfold registerCreditEntry_xml.
  rewrite wrap_parent. cbv zeta. rewrite indent_of_explicit by lia.
  rewrite (render_auth_first c _ 1 Hc) by lia.
  rewrite render_optional_field by (assumption || lia).
  rewrite render_optional_field
    by (lia || (unfold js_or; destruct (ToBoolean _); [assumption|reflexivity])).
  rewrite render_field, render_children_nil by lia.
  simpl mbind. rewrite parent_xml_eq, append_empty_r.
  assert (Htext : field_xml (1 + 1) "adoszam" (js_or (prop options "taxNumber") (JStr EmptyString))
                  = element 2 "adoszam"
                      (if ToBoolean (prop options "taxNumber")
                       then scalar_text (prop options "taxNumber") else EmptyString)).
  { unfold js_or, field_xml.
    destruct (ToBoolean (prop options "taxNumber")) eqn:Ht; [|reflexivity].
    destruct (prop options "taxNumber"); try discriminate; reflexivity. }
  rewrite Htext. reflexivity.
Qed.

End Documents.

Lemma getInvoiceData_document_witness :
  let host := offline in
  getInvoiceData_xml demo_client order_query_options
  = Return (_getXmlHeader "xmlszamlaxml" "agentxml"
            +:+ "  <szamlaagentkulcs>97039xbwy2</szamlaagentkulcs>" +:+ nl
            +:+ "  <rendelesSzam>WEB-1001</rendelesSzam>" +:+ nl
            +:+ "  <pdf>true</pdf>" +:+ nl
            +:+ "</xmlszamlaxml>").
Proof.
  intros host.
  exact (getInvoiceData_document (H := host) demo_client order_query_options
           demo_client_constructed eq_refl eq_refl eq_refl).
Defined.

Lemma reverseInvoice_document_witness :
  let host := offline in
  reverseInvoice_xml demo_client reversal_null_options march_seventh
  = Return (_getXmlHeader "xmlszamlast" "agentst"
            +:+ "<beallitasok>" +:+ nl
            +:+ "  <szamlaagentkulcs>97039xbwy2</szamlaagentkulcs>" +:+ nl
            +:+ "  <eszamla>null</eszamla>" +:+ nl
            +:+ "  <szamlaLetoltes>0</szamlaLetoltes>" +:+ nl
            +:+ "</beallitasok>" +:+ nl
            +:+ "<fejlec>" +:+ nl
            +:+ "  <szamlaszam>E-TST-2011-1</szamlaszam>" +:+ nl
            +:+ "  <keltDatum>2024-03-07</keltDatum>" +:+ nl
            +:+ "</fejlec>" +:+ nl
            +:+ "</xmlszamlast>").
Proof.
  intros host.
  exact (reverseInvoice_document (H := host) demo_client reversal_null_options march_seventh
           demo_client_constructed eq_refl).
Defined.

Lemma queryTaxPayer_document_witness :
  let host := offline in
  queryTaxPayer_xml demo_client (JNum 12345678)
  = Return (_getXmlHeader "xmltaxpayer" "agent"
            +:+ "  <beallitasok>" +:+ nl
            +:+ "    <szamlaagentkulcs>97039xbwy2</szamlaagentkulcs>" +:+ nl
            +:+ "  </beallitasok>" +:+ nl
            +:+ "  <torzsszam>12345678</torzsszam>" +:+ nl
            +:+ "</xmltaxpayer>").
Proof.
  intros host.
  exact (queryTaxPayer_document (H := host) demo_client (JNum 12345678)
           demo_client_constructed eq_refl).
Defined.

Lemma issueInvoice_document_witness :
  let host := offline in
  issueInvoice_xml demo_client demo_invoice
  = Return (_getXmlHeader "xmlszamla" "agent"
            +:+ "  <beallitasok>" +:+ nl
            +:+ "    <szamlaagentkulcs>97039xbwy2</szamlaagentkulcs>" +:+ nl
            +:+ "    <eszamla>false</eszamla>" +:+ nl
            +:+ "    <szamlaLetoltes>false</szamlaLetoltes>" +:+ nl
            +:+ "    <szamlaLetoltesPld>1</szamlaLetoltesPld>" +:+ nl
            +:+ "    <valaszVerzio>1</valaszVerzio>" +:+ nl
            +:+ "  </beallitasok>" +:+ nl
            +:+ "  <elado>" +:+ nl
            +:+ "    <bank>OTP</bank>" +:+ nl
            +:+ "  </elado>" +:+ nl
            +:+ "</xmlszamla>").
Proof.
  intros host.
  exact (issueInvoice_document (H := host) demo_client demo_invoice
           demo_client_constructed eq_refl eq_refl eq_refl eq_refl).
Defined.

Lemma registerCreditEntry_document_witness :
  let host := offline in
  registerCreditEntry_xml demo_client additive_false_options [IsCreditEntry demo_entry]
  = Return credit_entry_document.
Proof.
  intros host.
  exact (registerCreditEntry_document (H := host) demo_client additive_false_options
           [IsCreditEntry demo_entry] demo_client_constructed eq_refl eq_refl).
Defined.

(** ** What the operations return (Client.js) *)

Section Results.
Context `{Host}.

(** The result of [reverseInvoice]: the four fields are read from the
    headers of the response, and the body is the pdf, unparsed, when the
    option of the call is truthy, whatever the client was configured with
    and whatever text of the option went into the document. *)
Theorem reverseInvoice_result
    (c : Client) (options : gmap string jsval) (log : list event)
    (r : HttpResponse) (xml : string) :
  valid_field (prop options "invoiceId") = true ->
  is_undefined (prop options "eInvoice") = false ->
  is_undefined (prop options "requestInvoiceDownload") = false ->
  reverseInvoice_xml c options (Date_now log) = Return xml ->
  answers log r ->
  passes_header_checks r ->
  reverseInvoice c options log
  = (Return (summary r (if ToBoolean (prop options "requestInvoiceDownload")
                        then Some (resp_data r) else None)),
     log ++ [Posted "action-szamla_agent_st" xml true]).
Proof.
  intros Hid He Hd Hxml Hans Hpass. unfold reverseInvoice.
  rewrite bind_lift, Hid. simpl assert. cbv iota beta.
  rewrite bind_lift, He. simpl assert. cbv iota beta.
  rewrite bind_lift, Hd. simpl assert. cbv iota beta.
  rewrite bind_new_Date, bind_lift, Hxml.
  rewrite (bind_run _ _ _ _ _ (sendRequest_binary_ok _ xml log r Hans Hpass)).
  reflexivity.
Qed.

(** The result of [getInvoiceData] is the [szamla] member of the parsed
    body, undefined when the body has none; the body is parsed twice, once
    by the transport and once by the operation. A body that does not parse
    fails the operation at the first parse. *)
Theorem getInvoiceData_result
    (c : Client) (options : gmap string jsval) (log : list event)
    (r : HttpResponse) (xml : string) :
  valid_field (prop options "invoiceId") || valid_field (prop options "orderNumber") = true ->
  getInvoiceData_xml c options = Return xml ->
  answers log r ->
  passes_header_checks r ->
  (forall doc,
     xml2js_parseString (resp_data r) = Return doc ->
     no_error_node doc ->
     getInvoiceData c options log
     = (Return (default JUndefined (getOwn doc "szamla")),
        log ++ [Posted "action-szamla_agent_xml" xml false;
                Parsed (resp_data r); Parsed (resp_data r)]))
  /\ (forall e,
        xml2js_parseString (resp_data r) = Throw e ->
        getInvoiceData c options log
        = (Throw e, log ++ [Posted "action-szamla_agent_xml" xml false;
                            Parsed (resp_data r)])).
Proof.
  intros Hval Hxml Hans Hpass.
  split; [intros doc Hparse Hnode|intros e Hparse].
  all: unfold getInvoiceData; rewrite bind_lift, Hval; simpl assert; cbv iota beta.
  all: rewrite bind_lift, Hxml.
  - rewrite (bind_run _ _ _ _ _
               (sendRequest_parsed_ok "action-szamla_agent_xml" xml log r doc
                  Hans Hpass eq_refl Hparse Hnode)).
    rewrite bind_parseString, Hparse. unfold lift.
    rewrite (Get_present _ _ (proj1 Hnode)), <- app_assoc. reflexivity.
  - unfold mbind, M_bind at 1.
    rewrite (sendRequest_checked _ _ _ _ r (Hans _ _ _) Hpass). cbv zeta.
    simpl orb. cbv iota. rewrite Hparse, <- app_assoc. reflexivity.
Qed.

(** [issueInvoice] with a response version that is neither the number 1 nor
    the number 2: the response is asked for as text and parsed once by the
    transport, and the result has no pdf, also when the download is
    configured. *)
Theorem issueInvoice_other_version_has_no_pdf
    (c : Client) (invoice : Invoice) (log : list event) (r : HttpResponse)
    (xml : string) (doc : jsval) :
  issueInvoice_xml c invoice = Return xml ->
  answers log r ->
  passes_header_checks r ->
  is_number_lit (prop (_options c) "responseVersion") 1 = false ->
  is_number_lit (prop (_options c) "responseVersion") 2 = false ->
  xml2js_parseString (resp_data r) = Return doc ->
  no_error_node doc ->
  issueInvoice c invoice log
  = (Return (summary r None),
     log ++ [Posted "action-xmlagentxmlfile" xml false; Parsed (resp_data r)]).
Proof.
  intros Hxml Hans Hpass Hv1 Hv2 Hparse Hnode. unfold issueInvoice.
  rewrite bind_lift, Hxml, Hv1, Hv2.
  rewrite (bind_run _ _ _ _ _
             (sendRequest_parsed_ok "action-xmlagentxmlfile" xml log r doc
                Hans Hpass eq_refl Hparse Hnode)).
  destruct (ToBoolean _); reflexivity.
Qed.

Lemma getAuthFields_set (c : Client) (value : jsval) :
  _getAuthFields (setRequestInvoiceDownload c value) = _getAuthFields c.
Proof.
  unfold _getAuthFields, setRequestInvoiceDownload, prop. cbn [useToken _options].
  rewrite !lookup_insert_ne by discriminate. reflexivity.
Qed.

(** [setRequestInvoiceDownload] matters to [issueInvoice] alone: every other
    operation runs as before. The authentication mode is kept, and a second
    call replaces what the first one set. *)
Theorem setRequestInvoiceDownload_concerns_issueInvoice_only
    (c : Client) (value : jsval) (op : call) (log : list event) :
  (forall invoice, op <> IssueInvoice invoice) ->
  run (setRequestInvoiceDownload c value) op log = run c op log
  /\ useToken (setRequestInvoiceDownload c value) = useToken c
  /\ (forall earlier,
        setRequestInvoiceDownload (setRequestInvoiceDownload c earlier) value
        = setRequestInvoiceDownload c value).
Proof.
  intros Hop. split; [|split; [reflexivity|]].
  - destruct op as [options|options|invoice|taxPayerId|options creditEntries];
      [| |destruct (Hop invoice eq_refl)| |]; unfold run.
    + unfold getInvoiceData, getInvoiceData_xml. rewrite getAuthFields_set. reflexivity.
    + unfold reverseInvoice, reverseInvoice_xml. rewrite getAuthFields_set. reflexivity.
    + unfold queryTaxPayer, queryTaxPayer_xml. rewrite getAuthFields_set. reflexivity.
    + unfold registerCreditEntry, registerCreditEntry_xml. rewrite getAuthFields_set.
      reflexivity.
  - intros earlier. unfold setRequestInvoiceDownload. cbn [_options useToken].
    rewrite insert_insert_eq. reflexivity.
Qed.

Lemma split_on_first (sep : ascii) (s : string) :
  exists w ws, split_on sep s = w :: ws.
Proof.
  induction s as [|a s (w & ws & IH)]; simpl; [eauto|].
  destruct (Ascii.eqb a sep); [eauto|]. rewrite IH. eauto.
Qed.

(** [xml2obj] passes a parser error on. On a document that is null or
    undefined it fails with a TypeError as soon as there is a path to walk,
    and with no path at all it gives the empty object for any document. *)
Theorem xml2obj_without_document
    (xml : string) (objList : list (string * string)) (log : list event) :
  (forall e,
     xml2js_parseString xml = Throw e ->
     xml2obj xml objList log = (Throw e, log ++ [Parsed xml]))
  /\ (forall res,
        xml2js_parseString xml = Return res ->
        is_nullish res = true ->
        objList <> [] ->
        xml2obj xml objList log
        = (Throw (TypeError "Cannot read properties of undefined or null"),
           log ++ [Parsed xml]))
  /\ (forall res,
        xml2js_parseString xml = Return res ->
        xml2obj xml [] log = (Return ∅, log ++ [Parsed xml])).
Proof.
  unfold xml2obj. split; [|split].
  - intros e Hparse. rewrite bind_parseString, Hparse. reflexivity.
  - intros res Hparse Hnull Hpaths. rewrite bind_parseString, Hparse.
    destruct objList as [|[keyPath key] rest]; [contradiction|].
    unfold lift, project. simpl.
    destruct (split_on_first "." keyPath) as (w & ws & ->).
    destruct res; try discriminate; reflexivity.
  - intros res Hparse. rewrite bind_parseString, Hparse. reflexivity.
Qed.

End Results.

Lemma reverseInvoice_result_witness :
  let host := scripted (Return storno_response) (fun _ => Throw (ForeignError "not XML")) in
  exists xml,
    reverseInvoice demo_client reversal_text_flag_options []
    = (Return (summary storno_response (Some "%PDF-1.4")),
       [Posted "action-szamla_agent_st" xml true]).
Proof.
  intros host. eexists.
  exact (reverseInvoice_result (H := host) demo_client reversal_text_flag_options []
           storno_response _ eq_refl eq_refl eq_refl eq_refl (fun _ _ _ => eq_refl)
           (conj eq_refl (or_introl eq_refl))).
Defined.

Lemma getInvoiceData_result_witness :
  let host := scripted (Return (ok_response [] "<szamla/>"))
                (fun _ => Return invoice_data_document) in
  exists xml,
    getInvoiceData demo_client order_query_options []
    = (Return (JObj [("alap", JArr [JObj [("szamlaszam", JArr [JStr "E-TST-2011-1"])]])]),
       [Posted "action-szamla_agent_xml" xml false; Parsed "<szamla/>"; Parsed "<szamla/>"]).
Proof.
  intros host. eexists.
  exact (proj1 (getInvoiceData_result (H := host) demo_client order_query_options []
                  (ok_response [] "<szamla/>") _ eq_refl eq_refl (fun _ _ _ => eq_refl)
                  (conj eq_refl (or_introl eq_refl)))
           invoice_data_document eq_refl (conj eq_refl eq_refl)).
Defined.

Lemma issueInvoice_other_version_has_no_pdf_witness :
  let host := scripted (Return pdf_response) (fun _ => Return pdf_document) in
  exists xml,
    issueInvoice version_three_client demo_invoice []
    = (Return (summary pdf_response None),
       [Posted "action-xmlagentxmlfile" xml false; Parsed "<xmlszamlavalasz/>"]).
Proof.
  intros host. eexists.
  exact (issueInvoice_other_version_has_no_pdf (H := host) version_three_client demo_invoice []
           pdf_response _ pdf_document eq_refl (fun _ _ _ => eq_refl)
           (conj eq_refl (or_introl eq_refl)) eq_refl eq_refl eq_refl (conj eq_refl eq_refl)).
Defined.

Lemma setRequestInvoiceDownload_concerns_issueInvoice_only_witness :
  let host := offline in
  run (setRequestInvoiceDownload demo_client (JBool true)) (QueryTaxPayer (JNum 12345678)) []
  = run demo_client (QueryTaxPayer (JNum 12345678)) []
  /\ useToken (setRequestInvoiceDownload demo_client (JBool true)) = useToken demo_client
  /\ (forall earlier,
        setRequestInvoiceDownload (setRequestInvoiceDownload demo_client earlier) (JBool true)
        = setRequestInvoiceDownload demo_client (JBool true)).
Proof.
  intros host.
  apply (setRequestInvoiceDownload_concerns_issueInvoice_only (H := host) demo_client
           (JBool true) (QueryTaxPayer (JNum 12345678)) []).
  discriminate.
Defined.

Lemma xml2obj_without_document_witness :
  let host := scripted (Throw (ForeignError "offline")) (fun _ => Return JNull) in
  xml2obj EmptyString [("xmlszamlavalasz.pdf", "pdf")] []
  = (Throw (TypeError "Cannot read properties of undefined or null"), [Parsed EmptyString]).
Proof.
  intros host.
  refine (proj1 (proj2 (xml2obj_without_document (H := host) EmptyString
                          [("xmlszamlavalasz.pdf", "pdf")] []))
            JNull eq_refl eq_refl _).
  discriminate.
Defined.

(** ** The tax payer that is found (Client.js) *)

Section TaxPayerFound.
Context `{Host}.

Lemma js_or_null (v : jsval) : null_or_truthy (js_or v JNull).
Proof.
  unfold null_or_truthy, js_or. destruct (ToBoolean v) eqn:Hv; auto.
Qed.

(** [_extractAddress] gives null when the list, or its member
    [taxpayerAddressItem], is missing or falsy. Otherwise it fails when that
    member has no first item, and else gives an object of exactly six
    fields, in the order of the source, each of them null or truthy. *)
Theorem extractAddress_cases (addressList : jsval) :
  let items := elem addressList "taxpayerAddressItem" in
  (ToBoolean addressList = false \/ ToBoolean items = false ->
   _extractAddress addressList = Return JNull)
  /\ (ToBoolean addressList = true -> ToBoolean items = true ->
      (is_nullish (elem items "0") = true ->
       exists e, _extractAddress addressList = Throw e)
      /\ (is_nullish (elem items "0") = false ->
          exists fields,
            _extractAddress addressList = Return (JObj fields)
            /\ fields.*1 = ["countryCode"; "postalCode"; "city"; "streetName";
                            "publicPlaceCategory"; "number"]
            /\ Forall null_or_truthy fields.*2)).
Proof.
  intros items. unfold _extractAddress. fold items. split.
  - intros [-> | ->]; [reflexivity|]. rewrite orb_true_r. reflexivity.
  - intros -> ->. simpl orb. cbv iota. unfold Get. split; intros ->.
    + simpl. eauto.
    + simpl. eexists. split; [reflexivity|]. split; [reflexivity|].
      simpl. repeat (apply Forall_cons_2; [apply js_or_null|]). apply Forall_nil_2.
Qed.

(** A tax payer that the service calls valid: the result has the seven
    fields of the source in their order, [taxpayerValidity] true, the five
    fields of the tax payer null or truthy, and the address that
    [_extractAddress] gives for the first address list. With no
    [taxpayerData] in the response every field but the first is null. When
    [_extractAddress] fails, the operation fails with its error. *)
Theorem queryTaxPayer_valid_result
    (c : Client) (taxPayerId : jsval) (log : list event) (r : HttpResponse)
    (parsedBody cleanParsedBodyData : jsval) :
  constructed c ->
  valid_taxPayerId taxPayerId = true ->
  answers log r ->
  passes_header_checks r ->
  xml2js_parseString (resp_data r) = Return parsedBody ->
  no_error_node parsedBody ->
  getOwn (removeNamespaces parsedBody) "QueryTaxpayerResponse" = Some cleanParsedBodyData ->
  is_nullish cleanParsedBodyData = false ->
  OptGet (elem cleanParsedBodyData "taxpayerValidity") "0" = JStr "true" ->
  let taxpayerData :=
    js_or (OptGet (elem cleanParsedBodyData "taxpayerData") "0") (JObj []) in
  let addressList := OptGet (elem taxpayerData "taxpayerAddressList") "0" in
  exists xml,
    let exchange := log ++ [Posted "action-szamla_agent_taxpayer" xml false;
                            Parsed (resp_data r); Parsed (resp_data r)] in
    (forall address,
       _extractAddress addressList = Return address ->
       exists fields,
         queryTaxPayer c taxPayerId log
         = (Return (JObj (("taxpayerValidity", JBool true) :: fields
                          ++ [("address", address)])),
            exchange)
         /\ fields.*1 = ["taxpayerId"; "vatCode"; "countyCode"; "taxpayerName";
                         "taxpayerShortName"]
         /\ Forall null_or_truthy fields.*2)
    /\ (forall e,
          _extractAddress addressList = Throw e ->
          queryTaxPayer c taxPayerId log = (Throw e, exchange))
    /\ (getOwn cleanParsedBodyData "taxpayerData" = None ->
        queryTaxPayer c taxPayerId log
        = (Return (JObj [("taxpayerValidity", JBool true); ("taxpayerId", JNull);
                         ("vatCode", JNull); ("countyCode", JNull);
                         ("taxpayerName", JNull); ("taxpayerShortName", JNull);
                         ("address", JNull)]),
           exchange)).
Proof.
  intros Hc Hid Hans Hpass Hparse Hnode Hroot Hdata Hleaf taxpayerData addressList.
  destruct (queryTaxPayer_xml_returns c taxPayerId Hc Hid) as (xml & Hxml).
  exists xml. intros exchange.
  assert (Hrun : queryTaxPayer c taxPayerId log
    = (address ← lift (_extractAddress addressList);
       mret (JObj
         [ ("taxpayerValidity", JBool true);
           ("taxpayerId",
              js_or (OptGet (elem (js_or (OptGet (elem taxpayerData "taxNumberDetail") "0")
                                     (JObj [])) "taxpayerId") "0") JNull);
           ("vatCode",
              js_or (OptGet (elem (js_or (OptGet (elem taxpayerData "taxNumberDetail") "0")
                                     (JObj [])) "vatCode") "0") JNull);
           ("countyCode",
              js_or (OptGet (elem (js_or (OptGet (elem taxpayerData "taxNumberDetail") "0")
                                     (JObj [])) "countyCode") "0") JNull);
           ("taxpayerName", js_or (OptGet (elem taxpayerData "taxpayerName") "0") JNull);
           ("taxpayerShortName",
              js_or (OptGet (elem taxpayerData "taxpayerShortName") "0") JNull);
           ("address", address) ])) exchange).
  { unfold queryTaxPayer.
    rewrite bind_lift, Hid; simpl assert; cbv iota beta.
    rewrite bind_lift, Hxml.
    rewrite (bind_run _ _ _ _ _
               (sendRequest_parsed_ok "action-szamla_agent_taxpayer" xml log r parsedBody
                  Hans Hpass eq_refl Hparse Hnode)).
    rewrite bind_parseString, Hparse, bind_lift.
    rewrite (Get_own _ _ _ Hroot), bind_lift, (Get_present _ _ Hdata).
    rewrite <- app_assoc. simpl app. rewrite Hleaf. reflexivity. }
  rewrite Hrun, bind_lift. split; [|split].
  - intros address ->. eexists [_; _; _; _; _]. split; [reflexivity|]. split; [reflexivity|].
    simpl. repeat (apply Forall_cons_2; [apply js_or_null|]). apply Forall_nil_2.
  - intros e ->. reflexivity.
  - intros Hnone.
    assert (Hempty : taxpayerData = JObj [])
      by (unfold taxpayerData, elem; rewrite Hnone; reflexivity).
    unfold addressList. rewrite Hempty. reflexivity.
Qed.

End TaxPayerFound.

Lemma extractAddress_cases_witness :
  _extractAddress JUndefined = Return JNull
  /\ (exists e, _extractAddress (JObj [("taxpayerAddressItem", JArr [])]) = Throw e)
  /\ exists fields,
       _extractAddress address_list = Return (JObj fields)
       /\ fields.*1 = ["countryCode"; "postalCode"; "city"; "streetName";
                       "publicPlaceCategory"; "number"]
       /\ Forall null_or_truthy fields.*2.
Proof.
  split; [|split].
  - apply (proj1 (extractAddress_cases JUndefined)). left. reflexivity.
  - apply (proj2 (extractAddress_cases (JObj [("taxpayerAddressItem", JArr [])]))
             eq_refl eq_refl).
    reflexivity.
  - apply (proj2 (extractAddress_cases address_list) eq_refl eq_refl). reflexivity.
Defined.

Lemma queryTaxPayer_valid_result_witness :
  let host := scripted (Return (ok_response [] "<QueryTaxpayerResponse/>"))
                (fun _ => Return bare_taxpayer_document) in
  exists xml,
    queryTaxPayer demo_client (JNum 12345678) []
    = (Return (JObj [("taxpayerValidity", JBool true); ("taxpayerId", JNull);
                     ("vatCode", JNull); ("countyCode", JNull);
                     ("taxpayerName", JNull); ("taxpayerShortName", JNull);
                     ("address", JNull)]),
       [Posted "action-szamla_agent_taxpayer" xml false;
        Parsed "<QueryTaxpayerResponse/>"; Parsed "<QueryTaxpayerResponse/>"]).
Proof.
  intros host.
  destruct (queryTaxPayer_valid_result (H := host) demo_client (JNum 12345678) []
              (ok_response [] "<QueryTaxpayerResponse/>") bare_taxpayer_document
              (JObj [("taxpayerValidity", JArr [JStr "true"])])
              demo_client_constructed eq_refl (fun _ _ _ => eq_refl)
              (conj eq_refl (or_introl eq_refl)) eq_refl (conj eq_refl eq_refl)
              eq_refl eq_refl eq_refl) as (xml & _ & _ & Hbare).
  exists xml. apply Hbare. reflexivity.
Defined.

(** ** Arguments that are refused (Client.js) *)

Section Refusals.
Context `{Host}.

(** [reverseInvoice] checks the invoice number first, then the two flags,
    and refuses with the message of the first check that fails, before
    anything is built or sent. A flag that is null passes: only undefined
    is refused. *)
Theorem reverseInvoice_refusals
    (c : Client) (options : gmap string jsval) (log : list event) :
  (valid_field (prop options "invoiceId") = false ->
   reverseInvoice c options log
   = (Throw (AssertionError "invoiceId must be specified"), log))
  /\ (valid_field (prop options "invoiceId") = true ->
      options !! "eInvoice" = None \/ options !! "eInvoice" = Some JUndefined ->
      reverseInvoice c options log
      = (Throw (AssertionError "eInvoice must be specified"), log))
  /\ (valid_field (prop options "invoiceId") = true ->
      is_undefined (prop options "eInvoice") = false ->
      options !! "requestInvoiceDownload" = None
      \/ options !! "requestInvoiceDownload" = Some JUndefined ->
      reverseInvoice c options log
      = (Throw (AssertionError "requestInvoiceDownload must be specified"), log))
  /\ (validate (ReverseInvoice options) = Return tt <->
      valid_field (prop options "invoiceId") = true
      /\ prop options "eInvoice" <> JUndefined
      /\ prop options "requestInvoiceDownload" <> JUndefined).
Proof.
  unfold reverseInvoice, validate. repeat split.
  - intros Hid. rewrite bind_lift, Hid. reflexivity.
  - intros Hid He. rewrite bind_lift, Hid. simpl assert. cbv iota beta.
    rewrite bind_lift. unfold prop. destruct He as [-> | ->]; reflexivity.
  - intros Hid He Hd. rewrite bind_lift, Hid. simpl assert. cbv iota beta.
    rewrite bind_lift, He. simpl assert. cbv iota beta.
    rewrite bind_lift. unfold prop. destruct Hd as [-> | ->]; reflexivity.
  - destruct (valid_field (prop options "invoiceId")); [reflexivity|discriminate].
  - destruct (valid_field (prop options "invoiceId")); [|discriminate].
    destruct (prop options "eInvoice"); discriminate.
  - destruct (valid_field (prop options "invoiceId")); [|discriminate].
    destruct (prop options "eInvoice"); [discriminate|..];
      destruct (prop options "requestInvoiceDownload"); discriminate.
  - intros (-> & He & Hd).
    destruct (prop options "eInvoice"); [contradiction|..];
      destruct (prop options "requestInvoiceDownload"); try contradiction; reflexivity.
Qed.

(** [registerCreditEntry] refuses an invoice number that is no string of two
    characters or more, then entries that are no array or an empty one, then
    an array with an element that is no credit entry, before anything is
    sent. Else its result is read from three headers of the response, whose
    body is not looked at: an error code in the body goes unnoticed. *)
Theorem registerCreditEntry_result
    (c : Client) (options : gmap string jsval) (creditEntries : option (list entry_arg))
    (log : list event) :
  (valid_field (prop options "invoiceId") = false ->
   registerCreditEntry c options creditEntries log
   = (Throw (AssertionError "invoiceId must be specified"), log))
  /\ (valid_field (prop options "invoiceId") = true ->
      creditEntries = None \/ creditEntries = Some [] ->
      registerCreditEntry c options creditEntries log
      = (Throw (AssertionError "creditEntries must be specified and must be an array"), log))
  /\ (forall entries v,
        valid_field (prop options "invoiceId") = true ->
        creditEntries = Some entries ->
        In (NotCreditEntry v) entries ->
        registerCreditEntry c options creditEntries log
        = (Throw (AssertionError "All entries must be instances of CreditEntry"), log))
  /\ (forall entries xml r,
        valid_field (prop options "invoiceId") = true ->
        creditEntries = Some entries ->
        entries <> [] ->
        forallb instanceof_CreditEntry entries = true ->
        registerCreditEntry_xml c options entries = Return xml ->
        answers log r ->
        passes_header_checks r ->
        registerCreditEntry c options creditEntries log
        = (Return {| credit_invoiceId := headers r !! "szlahu_szamlaszam";
                     credit_netTotal := headers r !! "szlahu_nettovegosszeg";
                     credit_grossTotal := headers r !! "szlahu_bruttovegosszeg" |},
           log ++ [Posted "action-szamla_agent_kifiz" xml false])).
Proof.
  unfold registerCreditEntry. repeat split.
  - intros Hid. rewrite bind_lift, Hid. reflexivity.
  - intros Hid Hnone. rewrite bind_lift, Hid. simpl assert. cbv iota beta.
    rewrite bind_lift. destruct Hnone as [-> | ->]; reflexivity.
  - intros entries v Hid -> Hin. rewrite bind_lift, Hid. simpl assert. cbv iota beta.
    assert (Hlen : (0 <? length entries)%nat = true) by (destruct entries; [destruct Hin|reflexivity]).
    rewrite bind_lift, Hlen. simpl assert. cbv iota beta.
    assert (Hall : forallb instanceof_CreditEntry entries = false).
    { destruct (forallb instanceof_CreditEntry entries) eqn:Hall; [|reflexivity].
      rewrite forallb_forall in Hall. specialize (Hall _ Hin). discriminate. }
    rewrite bind_lift. simpl default. rewrite Hall. reflexivity.
  - intros entries xml r Hid -> Hne Hall Hxml Hans Hpass.
    rewrite bind_lift, Hid. simpl assert. cbv iota beta.
    assert (Hlen : (0 <? length entries)%nat = true) by (destruct entries; [contradiction|reflexivity]).
    rewrite bind_lift, Hlen. simpl assert. cbv iota beta.
    rewrite bind_lift. simpl default. rewrite Hall. simpl assert. cbv iota beta.
    rewrite bind_lift, Hxml.
    unfold mbind, M_bind.
    rewrite (sendRequest_checked _ _ _ _ r (Hans _ _ _) Hpass). reflexivity.
Qed.

End Refusals.

Lemma reverseInvoice_refusals_witness :
  let host := offline in
  reverseInvoice demo_client (options_of [("invoiceId", JStr "E")]) []
  = (Throw (AssertionError "invoiceId must be specified"), [])
  /\ reverseInvoice demo_client (options_of [("invoiceId", JStr "E-TST-2011-1")]) []
     = (Throw (AssertionError "eInvoice must be specified"), [])
  /\ reverseInvoice demo_client
       (options_of [("invoiceId", JStr "E-TST-2011-1"); ("eInvoice", JNull)]) []
     = (Throw (AssertionError "requestInvoiceDownload must be specified"), [])
  /\ validate (ReverseInvoice reversal_null_options) = Return tt.
Proof.
  intros host. split; [|split; [|split]].
  - apply (proj1 (reverseInvoice_refusals (H := host) demo_client
                    (options_of [("invoiceId", JStr "E")]) [])).
    reflexivity.
  - apply (proj1 (proj2 (reverseInvoice_refusals (H := host) demo_client
                           (options_of [("invoiceId", JStr "E-TST-2011-1")]) [])));
      [reflexivity|left; reflexivity].
  - apply (proj1 (proj2 (proj2 (reverseInvoice_refusals (H := host) demo_client
                                  (options_of [("invoiceId", JStr "E-TST-2011-1");
                                               ("eInvoice", JNull)]) []))));
      [reflexivity|reflexivity|left; reflexivity].
  - apply (proj2 (proj2 (proj2 (reverseInvoice_refusals (H := host) demo_client
                                  reversal_null_options [])))).
    repeat split; discriminate.
Defined.

Lemma registerCreditEntry_result_witness :
  let host := scripted (Return credit_response) (fun _ => Return error_document) in
  registerCreditEntry demo_client additive_false_options (Some []) []
  = (Throw (AssertionError "creditEntries must be specified and must be an array"), [])
  /\ registerCreditEntry demo_client additive_false_options
       (Some [IsCreditEntry demo_entry; NotCreditEntry (JStr "1000")]) []
     = (Throw (AssertionError "All entries must be instances of CreditEntry"), [])
  /\ registerCreditEntry demo_client additive_false_options (Some [IsCreditEntry demo_entry]) []
     = (Return {| credit_invoiceId := Some "E-TST-2011-1";
                  credit_netTotal := Some "1000";
                  credit_grossTotal := None |},
        [Posted "action-szamla_agent_kifiz" credit_entry_document false]).
Proof.
  intros host. split; [|split].
  - apply (proj1 (proj2 (registerCreditEntry_result (H := host) demo_client
                           additive_false_options (Some []) [])));
      [reflexivity|right; reflexivity].
  - apply (proj1 (proj2 (proj2 (registerCreditEntry_result (H := host) demo_client
                                  additive_false_options
                                  (Some [IsCreditEntry demo_entry;
                                         NotCreditEntry (JStr "1000")]) [])))
             [IsCreditEntry demo_entry; NotCreditEntry (JStr "1000")] (JStr "1000"));
      [reflexivity|reflexivity|right; left; reflexivity].
  - refine (proj2 (proj2 (proj2 (registerCreditEntry_result (H := host) demo_client
                                   additive_false_options
                                   (Some [IsCreditEntry demo_entry]) [])))
              [IsCreditEntry demo_entry] credit_entry_document credit_response eq_refl eq_refl _ eq_refl eq_refl
              (fun _ _ _ => eq_refl) (conj eq_refl (or_introl eq_refl))).
    discriminate.
Defined.
